(** * Request admission layer of the outreach backend

    A shallow embedding of
      - [checkRateLimit] and [verifyTurnstileToken] (functions/_utils.js),
      - the client-side request lock [getTurnstileToken] /
        [completeRequest] (script.js),
    followed by the properties established for them.

    JavaScript values that come back from the key-value store or from
    the verification service are kept as JSON trees; the coercions the
    code applies to them ([||], [>], [+], [-], [!]) follow ECMAScript.
    Numbers are integers ([Z]): epoch seconds and counters never leave
    the range where doubles are exact. The model of Numbers is exact
    for integers of magnitude below 2^53; fractions, infinities and
    the rounding of larger values are outside it, and so are numeric
    strings that denote them. *)

From Stdlib Require Import ZArith List String Ascii Bool Lia Sorted.
From stdpp Require Import gmap strings list fin_maps.

Set Warnings "-register-all".

Open Scope string_scope.
Open Scope Z_scope.

(** ** JavaScript values *)

Module JS.

(** A value produced by [JSON.parse]. Object members are kept in an
    association list; a member read takes the first binding. *)
Inductive json : Type :=
| JNull
| JBool (b : bool)
| JNum (n : Z)
| JStr (s : string)
| JArr (items : list json)
| JObj (members : list (string * json)).

(** A Number: an integer or NaN. *)
Inductive jsnum : Type :=
| NaN
| Num (z : Z).

(** Normal or abrupt completion of a call; an exception is
    represented by its message. *)
Inductive completion (A : Type) : Type :=
| Normal (a : A)
| Throw (message : string).
Arguments Normal {A} a.
Arguments Throw {A} message.

(** ToBoolean *)
Definition truthy (v : json) : bool :=
  match v with
  | JNull => false
  | JBool b => b
  | JNum n => negb (n =? 0)
  | JStr s => negb (String.eqb s "")
  | JArr _ => true
  | JObj _ => true
  end.

(** Truthiness of a string-or-null such as a header value. *)
Definition truthy_str (o : option string) : bool :=
  match o with
  | Some s => negb (String.eqb s "")
  | None => false
  end.

Fixpoint assoc (k : string) (ms : list (string * json)) : option json :=
  match ms with
  | [] => None
  | (k', v) :: rest => if String.eqb k k' then Some v else assoc k rest
  end.

(** [v.name] for a non-null [v]; [None] is [undefined]. Primitives
    and arrays have no JSON-given members. *)
Definition member (name : string) (v : json) : option json :=
  match v with
  | JObj ms => assoc name ms
  | _ => None
  end.

(** [v?.name || dflt] *)
Definition member_or (name : string) (v : json) (dflt : json) : json :=
  match member name v with
  | Some x => if truthy x then x else dflt
  | None => dflt
  end.

(** *** Strings *)

(** WhiteSpace and LineTerminator code units below 256. *)
Definition is_space (c : ascii) : bool :=
  let n := nat_of_ascii c in
  ((9 <=? n)%nat && (n <=? 13)%nat) || (n =? 32)%nat || (n =? 160)%nat.

Fixpoint trim_start (s : string) : string :=
  match s with
  | String c rest => if is_space c then trim_start rest else s
  | EmptyString => EmptyString
  end.

Fixpoint trim_end (s : string) : string :=
  match s with
  | String c rest =>
      match trim_end rest with
      | EmptyString => if is_space c then EmptyString else String c EmptyString
      | t => String c t
      end
  | EmptyString => EmptyString
  end.

(** [s.trim()] *)
Definition trim (s : string) : string := trim_end (trim_start s).

(** [s.split(',')[0]] *)
Fixpoint before_comma (s : string) : string :=
  match s with
  | String c rest =>
      if Ascii.eqb c ","%char then EmptyString else String c (before_comma rest)
  | EmptyString => EmptyString
  end.

Definition digit_of (c : ascii) : option Z :=
  let n := nat_of_ascii c in
  if ((48 <=? n)%nat && (n <=? 57)%nat)%bool then Some (Z.of_nat n - 48) else None.

Fixpoint digits_value (acc : Z) (s : string) : jsnum :=
  match s with
  | EmptyString => Num acc
  | String c rest =>
      match digit_of c with
      | Some d => digits_value (10 * acc + d) rest
      | None => NaN
      end
  end.

(** StringToNumber on decimal integer literals: surrounding white
    space is ignored, the empty string is 0, an optional sign is
    followed by decimal digits; a string of any other form that is no
    numeric literal reads as [NaN]. Domain of the model: literals with
    a fraction, an exponent or a radix prefix, and [Infinity], which
    JavaScript reads as numbers, are outside it; they read as [NaN]
    here, and no property below is stated of values that contain
    them except where it holds whatever they read as. *)
Definition StringToNumber (s : string) : jsnum :=
  match trim s with
  | EmptyString => Num 0
  | String c rest =>
      if Ascii.eqb c "-"%char then
        match rest with
        | EmptyString => NaN
        | _ => match digits_value 0 rest with Num z => Num (- z) | NaN => NaN end
        end
      else if Ascii.eqb c "+"%char then
        match rest with
        | EmptyString => NaN
        | _ => digits_value 0 rest
        end
      else digits_value 0 (String c rest)
  end.

Definition digit_char (d : Z) : ascii := ascii_of_nat (48 + Z.to_nat d).

Fixpoint digits_of (fuel : nat) (n : Z) (acc : string) : string :=
  match fuel with
  | O => acc
  | S fuel' =>
      let acc' := String (digit_char (n mod 10)) acc in
      if n / 10 =? 0 then acc' else digits_of fuel' (n / 10) acc'
  end.

(** Number::toString for an integer of magnitude below 10^21, where
    JavaScript prints every digit; from 10^21 on it switches to
    exponent notation, which is outside the model. *)
Definition NumberToString (n : Z) : string :=
  if n <? 0 then String "-"%char (digits_of (Z.to_nat (Z.log2 (- n)) + 1) (- n) "")
  else digits_of (Z.to_nat (Z.log2 n) + 1) n "".

Fixpoint join (sep : string) (parts : list string) : string :=
  match parts with
  | [] => ""
  | [p] => p
  | p :: rest => String.append p (String.append sep (join sep rest))
  end.

(** ToString (ToPrimitive with hint string, then the conversion). An
    array prints as its elements joined by commas, with [null]
    elements printed empty. An object prints through
    [Object.prototype.toString], unless it has a member of its own
    named [toString]: no JSON value is callable, so the conversion
    finds no method that yields a primitive and throws a TypeError. *)
Fixpoint ToString (v : json) : completion string :=
  match v with
  | JNull => Normal "null"
  | JBool true => Normal "true"
  | JBool false => Normal "false"
  | JNum n => Normal (NumberToString n)
  | JStr s => Normal s
  | JArr items =>
      match
        (fix each (l : list json) : completion (list string) :=
           match l with
           | [] => Normal []
           | x :: l' =>
               match (match x with JNull => Normal "" | _ => ToString x end) with
               | Throw e => Throw e
               | Normal printed =>
                   match each l' with
                   | Throw e => Throw e
                   | Normal rest => Normal (printed :: rest)
                   end
               end
           end) items
      with
      | Throw e => Throw e
      | Normal parts => Normal (join "," parts)
      end
  | JObj members =>
      match assoc "toString" members with
      | Some _ => Throw "TypeError: Cannot convert object to primitive value"
      | None => Normal "[object Object]"
      end
  end.

(** ToNumber (after ToPrimitive with hint number; an own [valueOf]
    member, not being callable, is passed over). *)
Definition ToNumber (v : json) : completion jsnum :=
  match v with
  | JNull => Normal (Num 0)
  | JBool true => Normal (Num 1)
  | JBool false => Normal (Num 0)
  | JNum n => Normal (Num n)
  | JStr s => Normal (StringToNumber s)
  | JArr _ | JObj _ =>
      match ToString v with
      | Throw e => Throw e
      | Normal s => Normal (StringToNumber s)
      end
  end.

(** [v > n] for a Number [n]: false when [v] converts to NaN. *)
Definition gt_num (v : json) (n : Z) : completion bool :=
  match ToNumber v with
  | Throw e => Throw e
  | Normal (Num z) => Normal (n <? z)
  | Normal NaN => Normal false
  end.

(** [v + a - b] for Numbers [a], [b]: [+] concatenates when [v] is
    (or converts to) a string and adds otherwise; [-] is numeric. *)
Definition plus_minus (v : json) (a b : Z) : completion jsnum :=
  match v with
  | JStr _ | JArr _ | JObj _ =>
      match ToString v with
      | Throw e => Throw e
      | Normal s =>
          match StringToNumber (String.append s (NumberToString a)) with
          | Num z => Normal (Num (z - b))
          | NaN => Normal NaN
          end
      end
  | _ =>
      match ToNumber v with
      | Throw e => Throw e
      | Normal (Num z) => Normal (Num (z + a - b))
      | Normal NaN => Normal NaN
      end
  end.

(** [Math.max(n, x)] *)
Definition Math_max (n : Z) (x : jsnum) : jsnum :=
  match x with
  | Num z => Num (Z.max n z)
  | NaN => NaN
  end.

End JS.

Import JS.

(** ** The key-value store (Cloudflare KV binding)

    The store is an external collaborator consumed through
    [get(key, {type: 'json'})] and [put(key, text, {expirationTtl})].
    An entry holds text and the instant at which it expires; a read of
    text that is not JSON, or any call while the store is unreachable,
    throws. *)

Module KV.

(** Stored text: unparseable, or the serialisation of a JSON value
    ([JSON.parse] after [JSON.stringify] is the identity on [json]). *)
Inductive text : Type :=
| NotJson
| Json (v : json).

Record entry : Type := {
  entry_text : text;
  entry_expiration : Z
}.

Record namespace : Type := {
  entries : gmap string entry;
  get_fails : bool;
  put_fails : bool
}.

(** [await kv.get(key, {type: 'json'})] at instant [now] *)
Definition get (now : Z) (key : string) (kv : namespace) : completion json :=
  if get_fails kv then Throw "KV GET failed"
  else
    match entries kv !! key with
    | None => Normal JNull
    | Some e =>
        if entry_expiration e <=? now then Normal JNull
        else
          match entry_text e with
          | NotJson => Throw "SyntaxError: Unexpected token in JSON"
          | Json v => Normal v
          end
    end.

(** [await kv.put(key, JSON.stringify(v), {expirationTtl: ttl})] *)
Definition put (now : Z) (key : string) (v : json) (ttl : Z) (kv : namespace)
  : completion unit * namespace :=
  if put_fails kv then (Throw "KV PUT failed", kv)
  else
    (Normal tt,
     {| entries := <[key := {| entry_text := Json v; entry_expiration := now + ttl |}]> (entries kv);
        get_fails := get_fails kv;
        put_fails := put_fails kv |}).

End KV.

(** ** functions/_utils.js *)

Module Utils.

(** Rate limiting configuration *)
Definition RATE_LIMIT_MAX_REQUESTS : Z := 20.
Definition RATE_LIMIT_WINDOW_SECONDS : Z := 60.

(** The [request] argument, through [request.headers.get]. *)
Record Request : Type := {
  headers_get : string -> option string
}.

(** The [env] argument: bindings of the deployment. *)
Record Env : Type := {
  RATE_LIMIT_KV : option KV.namespace;
  TURNSTILE_SECRET_KEY : option string
}.

(** The object returned by [checkRateLimit]; [None] is an absent
    property. *)
Record Decision : Type := {
  allowed : bool;
  error : option string;
  retryAfter : option jsnum;
  remaining : option Z;
  resetAt : option Z
}.

(** What a call leaves behind: the binding's new state and the lines
    written to the console. *)
Record Effects : Type := {
  kv_after : option KV.namespace;
  console : list string
}.

(** [CF-Connecting-IP || X-Forwarded-For?.split(',')[0]?.trim() || 'unknown'] *)
Definition clientIP (request : Request) : string :=
  if truthy_str (headers_get request "CF-Connecting-IP") then
    default "" (headers_get request "CF-Connecting-IP")
  else
    match headers_get request "X-Forwarded-For" with
    | Some xff =>
        if truthy_str (Some (trim (before_comma xff))) then trim (before_comma xff)
        else "unknown"
    | None => "unknown"
    end.

Definition kvKey (request : Request) : string :=
  String.append "ratelimit:" (clientIP request).

(** The entries [ts] with [ts > windowStart], in order; a comparison
    that throws ends the filtering. *)
Fixpoint filter_gt (items : list json) (windowStart : Z) : completion (list json) :=
  match items with
  | [] => Normal []
  | ts :: rest =>
      match gt_num ts windowStart with
      | Throw e => Throw e
      | Normal keep =>
          match filter_gt rest windowStart with
          | Throw e => Throw e
          | Normal kept => Normal (if keep then ts :: kept else kept)
          end
      end
  end.

(** [timestamps.filter(ts => ts > windowStart)]; calling [filter] on
    a value that is not an array is a TypeError. *)
Definition filter_window (timestamps : json) (windowStart : Z) : completion (list json) :=
  match timestamps with
  | JArr items => filter_gt items windowStart
  | _ => Throw "TypeError: timestamps.filter is not a function"
  end.

(** The body of the [try] block of [checkRateLimit]. *)
Definition checkRateLimit_try (kvKey : string) (now : Z) (kv : KV.namespace)
  : completion Decision * KV.namespace :=
  let windowStart := now - RATE_LIMIT_WINDOW_SECONDS in
  match KV.get now kvKey kv with
  | Throw e => (Throw e, kv)
  | Normal existingData =>
      match filter_window (member_or "timestamps" existingData (JArr [])) windowStart with
      | Throw e => (Throw e, kv)
      | Normal timestamps =>
          if RATE_LIMIT_MAX_REQUESTS <=? Z.of_nat (length timestamps) then
            let oldestTimestamp := List.hd JNull timestamps in
            match plus_minus oldestTimestamp RATE_LIMIT_WINDOW_SECONDS now with
            | Throw e => (Throw e, kv)
            | Normal retryAfter =>
                (Normal {| allowed := false;
                           error := Some "Rate limit exceeded. Please try again later.";
                           retryAfter := Some (Math_max 1 retryAfter);
                           remaining := Some 0;
                           resetAt := None |},
                 kv)
            end
          else
            let timestamps := (timestamps ++ [JNum now])%list in
            match KV.put now kvKey (JObj [("timestamps", JArr timestamps)])
                    (RATE_LIMIT_WINDOW_SECONDS + 10) kv with
            | (Throw e, kv') => (Throw e, kv')
            | (Normal _, kv') =>
                (Normal {| allowed := true;
                           error := None;
                           retryAfter := None;
                           remaining := Some (RATE_LIMIT_MAX_REQUESTS - Z.of_nat (length timestamps));
                           resetAt := Some (now + RATE_LIMIT_WINDOW_SECONDS) |},
                 kv')
            end
      end
  end.

(** [checkRateLimit(request, env)], with [now] the value of
    [Math.floor(Date.now() / 1000)]. *)
Definition checkRateLimit (request : Request) (env : Env) (now : Z)
  : completion Decision * Effects :=
  match RATE_LIMIT_KV env with
  | None =>
      (Normal {| allowed := true; error := None; retryAfter := None;
                 remaining := None; resetAt := None |},
       {| kv_after := None;
          console := ["RATE_LIMIT_KV not configured, skipping rate limiting"] |})
  | Some kv =>
      match checkRateLimit_try (kvKey request) now kv with
      | (Normal d, kv') => (Normal d, {| kv_after := Some kv'; console := [] |})
      | (Throw e, kv') =>
          (Normal {| allowed := true; error := Some "Rate limit check failed";
                     retryAfter := None; remaining := None; resetAt := None |},
           {| kv_after := Some kv';
              console := [String.append "Rate limit check error: " e] |})
      end
  end.

End Utils.

(** ** functions/_utils.js, continued: Turnstile verification *)

Module Turnstile.

Import Utils.

(** The response of the verification service, through
    [response.json()]. *)
Record Response : Type := {
  json_body : completion json
}.

(** [fetch] of the siteverify endpoint with the form fields [secret]
    and [response]; the remote service is a parameter of the model. *)
Definition Siteverify : Type := string -> string -> completion Response.

(** The object returned by [verifyTurnstileToken]. *)
Record Verification : Type := {
  success : bool;
  error : option string
}.

Definition LOCAL_DEV_SECRET : string := "SKIP_FOR_LOCAL_DEV".

(** [data.success], where reading a member of [null] throws. *)
Definition data_success (data : json) : completion bool :=
  match data with
  | JNull => Throw "TypeError: Cannot read properties of null (reading 'success')"
  | _ => Normal (match member "success" data with
                 | Some x => truthy x
                 | None => false
                 end)
  end.

(** The body of the [try] block of [verifyTurnstileToken]. *)
Definition verifyTurnstileToken_try (fetch : Siteverify) (secretKey token : string)
  : completion Verification * list string :=
  match fetch secretKey token with
  | Throw e => (Throw e, [])
  | Normal response =>
      match json_body response with
      | Throw e => (Throw e, [])
      | Normal data =>
          match data_success data with
          | Throw e => (Throw e, [])
          | Normal false =>
              (Normal {| success := false; error := Some "Security verification failed" |},
               ["Turnstile verification failed:"])
          | Normal true =>
              (Normal {| success := true; error := None |}, [])
          end
      end
  end.

(** [verifyTurnstileToken(token, env)]: the result and the console
    lines. *)
Definition verifyTurnstileToken (fetch : Siteverify) (token : option string) (env : Env)
  : completion Verification * list string :=
  if bool_decide (TURNSTILE_SECRET_KEY env = Some LOCAL_DEV_SECRET) then
    (Normal {| success := true; error := None |},
     ["Skipping Turnstile verification for local development"])
  else if negb (truthy_str token) then
    (Normal {| success := false; error := Some "No Turnstile token provided" |}, [])
  else if negb (truthy_str (TURNSTILE_SECRET_KEY env)) then
    (Normal {| success := false; error := Some "Server configuration error" |},
     ["TURNSTILE_SECRET_KEY not configured"])
  else
    match verifyTurnstileToken_try fetch (default "" (TURNSTILE_SECRET_KEY env))
            (default "" token) with
    | (Normal r, out) => (Normal r, out)
    | (Throw e, out) =>
        (Normal {| success := false; error := Some "Security verification error" |},
         (out ++ [String.append "Turnstile verification error: " e])%list)
    end.

End Turnstile.

(** ** script.js: the client-side request lock *)

Module Script.

(** An action button, with the properties [setButtonsEnabled]
    writes. *)
Record Button : Type := {
  disabled : bool;
  opacity : string;
  cursor : string
}.

(** The page: the two module-level variables, the buttons matched by
    [button[data-action-button="true"]], and the verification
    widget. *)
Record Page : Type := {
  currentTurnstileToken : option string;
  currentRequestId : option string;
  buttons : list Button;
  turnstileElement : bool;
  turnstile : bool;
  turnstile_calls : list string
}.

(** What a caller may pass as [requestId]. *)
Inductive Ident : Type :=
| Undefined
| Null
| Id (s : string).

(** [currentRequestId === requestId] *)
Definition strict_eq (current : option string) (requestId : Ident) : bool :=
  match current, requestId with
  | None, Null => true
  | Some c, Id s => String.eqb c s
  | _, _ => false
  end.

(** [window.onTurnstileRefresh(token)] *)
Definition onTurnstileRefresh (token : string) (p : Page) : Page :=
  {| currentTurnstileToken := Some token;
     currentRequestId := currentRequestId p;
     buttons := buttons p;
     turnstileElement := turnstileElement p;
     turnstile := turnstile p;
     turnstile_calls := turnstile_calls p |}.

Definition setButton (enabled : bool) (b : Button) : Button :=
  {| disabled := negb enabled;
     opacity := if enabled then "1" else "0.5";
     cursor := if enabled then "pointer" else "not-allowed" |}.

Definition setButtonsEnabled (enabled : bool) (p : Page) : Page :=
  {| currentTurnstileToken := currentTurnstileToken p;
     currentRequestId := currentRequestId p;
     buttons := List.map (setButton enabled) (buttons p);
     turnstileElement := turnstileElement p;
     turnstile := turnstile p;
     turnstile_calls := turnstile_calls p |}.

Definition set_currentRequestId (r : option string) (p : Page) : Page :=
  {| currentTurnstileToken := currentTurnstileToken p;
     currentRequestId := r;
     buttons := buttons p;
     turnstileElement := turnstileElement p;
     turnstile := turnstile p;
     turnstile_calls := turnstile_calls p |}.

Definition set_currentTurnstileToken (t : option string) (p : Page) : Page :=
  {| currentTurnstileToken := t;
     currentRequestId := currentRequestId p;
     buttons := buttons p;
     turnstileElement := turnstileElement p;
     turnstile := turnstile p;
     turnstile_calls := turnstile_calls p |}.

(** [window.turnstile.reset(); window.turnstile.execute();] *)
Definition execute_widget (p : Page) : Page :=
  {| currentTurnstileToken := currentTurnstileToken p;
     currentRequestId := currentRequestId p;
     buttons := buttons p;
     turnstileElement := turnstileElement p;
     turnstile := turnstile p;
     turnstile_calls := (turnstile_calls p ++ ["reset"; "execute"])%list |}.

(** The interval callback's closure: the owner and the poll count. *)
Record Poller : Type := {
  requestId : string;
  attempts : nat
}.

(** The promise returned by [getTurnstileToken]: rejected at once, or
    pending on a poller. *)
Inductive Acquisition : Type :=
| Rejected (message : string)
| Pending (poller : Poller).

(** One run of the interval callback. *)
Inductive Tick : Type :=
| Waiting (poller : Poller)
| Resolve (token : string) (owner : string)
| Reject (message : string).

Definition maxAttempts : nat := 100.

(** [getTurnstileToken()], with [fresh] the identifier it generates
    from the clock and the random source. *)
Definition getTurnstileToken (fresh : string) (p : Page) : Acquisition * Page :=
  match currentRequestId p with
  | Some _ => (Rejected "Please wait for the current request to complete", p)
  | None =>
      let p := set_currentRequestId (Some fresh) p in
      let p := setButtonsEnabled false p in
      let p := set_currentTurnstileToken None p in
      if negb (turnstileElement p) then (Rejected "Turnstile widget not found", p)
      else
        let p := if turnstile p then execute_widget p else p in
        (Pending {| requestId := fresh; attempts := 0 |}, p)
  end.

(** The callback given to [setInterval(..., 100)]. *)
Definition checkToken (poller : Poller) (p : Page) : Tick * Page :=
  let attempts := S (attempts poller) in
  if truthy_str (currentTurnstileToken p) then
    (Resolve (default "" (currentTurnstileToken p)) (requestId poller), p)
  else if (maxAttempts <=? attempts)%nat then
    let p :=
      if strict_eq (currentRequestId p) (Id (requestId poller)) then
        setButtonsEnabled true (set_currentRequestId None p)
      else p in
    (Reject "Turnstile verification timeout", p)
  else
    (Waiting {| requestId := requestId poller; attempts := attempts |}, p).

(** [completeRequest(requestId)] *)
Definition completeRequest (requestId : Ident) (p : Page) : Page :=
  if strict_eq (currentRequestId p) requestId then
    setButtonsEnabled true (set_currentRequestId None p)
  else p.

(** [n] consecutive runs of the interval callback with nothing else
    happening in between; the interval is cleared at the first run
    that settles the promise. *)
Fixpoint poll (n : nat) (poller : Poller) (p : Page) : Tick * Page :=
  match n with
  | O => (Waiting poller, p)
  | S n' =>
      match checkToken poller p with
      | (Waiting poller', p') => poll n' poller' p'
      | settled => settled
      end
  end.

End Script.

(** ** functions/_utils.js, continued: the 429 response *)

Module Http.

(** A [Response]: status, the object given as [headers] to the
    constructor, and the value whose JSON text is the body ([None] for
    a [null] body). [headers] is that init object itself, a finite map
    from the names as written. The Headers object made from it
    compares names without regard to case and joins the values of
    names that differ only by case; the two read alike when no two
    names of the init object differ only by case. *)
Record Response : Type := {
  status : Z;
  headers : gmap string string;
  body : option json
}.

(** A header name in lower case (ASCII letters only), the form under
    which a Headers object compares names. *)
Definition lower_char (c : ascii) : ascii :=
  let n := nat_of_ascii c in
  if ((65 <=? n)%nat && (n <=? 90)%nat)%bool then ascii_of_nat (n + 32) else c.

Fixpoint lower (name : string) : string :=
  match name with
  | String c rest => String (lower_char c) (lower rest)
  | EmptyString => EmptyString
  end.

(** [rateLimitResponse(rateLimitResult, corsHeaders)] *)
Definition rateLimitResponse (rateLimitResult : Utils.Decision)
  (corsHeaders : gmap string string) : Response :=
  {| status := 429;
     headers :=
       <["Retry-After" :=
           NumberToString
             match Utils.retryAfter rateLimitResult with
             | Some (Num z) => if z =? 0 then 60 else z
             | _ => 60
             end]>
         (<["Content-Type" := "application/json"]> corsHeaders);
     body :=
       Some (JObj [("error",
                    JStr (if truthy_str (Utils.error rateLimitResult)
                          then default "" (Utils.error rateLimitResult)
                          else "Rate limit exceeded"))]) |}.

End Http.

(** ** functions/api/market-chat.js *)

Module MarketChat.

Import Utils.

Definition corsHeaders : gmap string string :=
  <["Access-Control-Allow-Origin" := "*"]>
    (<["Access-Control-Allow-Methods" := "GET, POST, OPTIONS"]>
       (<["Access-Control-Allow-Headers" := "Content-Type, CF-Turnstile-Token"]> ∅)).

(** [context.request]: the method, the headers, and what
    [request.json()] settles to. *)
Record Incoming : Type := {
  method : string;
  request : Request;
  request_json : completion json
}.

(** [context.env]: the bindings used by the helpers and the two
    read for the completion call. *)
Record Bindings : Type := {
  env : Env;
  OPENAI_BASE_URL : option string;
  OPENAI_API_KEY : option string
}.

(** The response of the completion service. *)
Record Upstream : Type := {
  ok : bool;
  text : completion string;
  json_of : completion json
}.

(** [fetch] of the chat-completions endpoint: the URL, the
    Authorization header and the content of the user message. The
    model name, the system prompt, the token limit and the temperature
    are constants of the call. *)
Definition Completions : Type := string -> string -> json -> completion Upstream.

(** A response with a JSON body and the CORS headers. *)
Definition json_response (code : Z) (payload : json) : Http.Response :=
  {| Http.status := code;
     Http.headers := <["Content-Type" := "application/json"]> corsHeaders;
     Http.body := Some payload |}.

(** Reading a member of a value that may be [undefined] ([None]);
    on [undefined] and on [null] the read is a TypeError, whose text
    is the engine's. *)
Definition read (name : string) (base : option json) : completion (option json) :=
  match base with
  | None => Throw (String.append "Cannot read properties of undefined, reading " name)
  | Some JNull => Throw (String.append "Cannot read properties of null, reading " name)
  | Some v => Normal (member name v)
  end.

(** [v[0]] for a value that is neither [undefined] nor [null]. *)
Definition index0 (v : json) : option json :=
  match v with
  | JArr (x :: _) => Some x
  | JStr (String c _) => Some (JStr (String c EmptyString))
  | JObj ms => assoc "0" ms
  | _ => None
  end.

(** [data.choices[0].message.content] *)
Definition first_choice_content (data : json) : completion (option json) :=
  match read "choices" (Some data) with
  | Throw e => Throw e
  | Normal None => Throw "Cannot read properties of undefined, reading 0"
  | Normal (Some JNull) => Throw "Cannot read properties of null, reading 0"
  | Normal (Some choices) =>
      match read "message" (index0 choices) with
      | Throw e => Throw e
      | Normal message => read "content" message
      end
  end.

(** The call of the completion service and the reading of its
    answer. *)
Definition ask (fetch : Completions) (bindings : Bindings) (query : json)
  : completion Http.Response :=
  match fetch
          (String.append
             (if truthy_str (OPENAI_BASE_URL bindings)
              then default "" (OPENAI_BASE_URL bindings)
              else "https://api.openai.com/v1")
             "/chat/completions")
          (String.append "Bearer " (default "undefined" (OPENAI_API_KEY bindings)))
          query with
  | Throw e => Throw e
  | Normal response =>
      if negb (ok response) then
        match text response with
        | Throw e => Throw e
        | Normal error => Throw (String.append "OpenAI API error: " error)
        end
      else
        match json_of response with
        | Throw e => Throw e
        | Normal data =>
            match first_choice_content data with
            | Throw e => Throw e
            | Normal (Some content) =>
                Normal (json_response 200 (JObj [("chatResponse", content)]))
            | Normal None => Normal (json_response 200 (JObj []))
            end
        end
  end.

(** The body of the [try] block of [onRequest]. *)
Definition onRequest_try (siteverify : Turnstile.Siteverify) (fetch : Completions)
  (incoming : Incoming) (bindings : Bindings) (now : Z)
  : completion Http.Response * Effects :=
  match checkRateLimit (request incoming) (env bindings) now with
  | (Throw e, eff) => (Throw e, eff)
  | (Normal rateLimitResult, eff) =>
      if negb (allowed rateLimitResult) then
        (Normal (Http.rateLimitResponse rateLimitResult corsHeaders), eff)
      else
        let turnstileToken := headers_get (request incoming) "CF-Turnstile-Token" in
        match Turnstile.verifyTurnstileToken siteverify turnstileToken (env bindings) with
        | (Throw e, out) =>
            (Throw e, {| kv_after := kv_after eff; console := (console eff ++ out)%list |})
        | (Normal verification, out) =>
            let eff := {| kv_after := kv_after eff; console := (console eff ++ out)%list |} in
            if negb (Turnstile.success verification) then
              (Normal
                 (json_response 403
                    (JObj [("error",
                            JStr (if truthy_str (Turnstile.error verification)
                                  then default "" (Turnstile.error verification)
                                  else "Security verification failed"))])),
               eff)
            else
              match request_json incoming with
              | Throw e => (Throw e, eff)
              | Normal JNull =>
                  (Throw "Cannot destructure property 'query' of null", eff)
              | Normal body =>
                  match member "query" body with
                  | Some query =>
                      if truthy query then (ask fetch bindings query, eff)
                      else
                        (Normal (json_response 400
                                   (JObj [("error", JStr "Query is required.")])),
                         eff)
                  | None =>
                      (Normal (json_response 400
                                 (JObj [("error", JStr "Query is required.")])),
                       eff)
                  end
              end
        end
  end.

(** [onRequest(context)], with [now] the clock reading of the rate
    limiter. *)
Definition onRequest (siteverify : Turnstile.Siteverify) (fetch : Completions)
  (incoming : Incoming) (bindings : Bindings) (now : Z)
  : Http.Response * Effects :=
  if String.eqb (method incoming) "OPTIONS" then
    ({| Http.status := 200; Http.headers := corsHeaders; Http.body := None |},
     {| kv_after := RATE_LIMIT_KV (env bindings); console := [] |})
  else if negb (String.eqb (method incoming) "POST") then
    (json_response 405 (JObj [("error", JStr "Method not allowed")]),
     {| kv_after := RATE_LIMIT_KV (env bindings); console := [] |})
  else
    match onRequest_try siteverify fetch incoming bindings now with
    | (Normal response, eff) => (response, eff)
    | (Throw e, eff) =>
        (json_response 500
           (JObj [("error", JStr (String.append "Failed to get market intelligence. " e))]),
         {| kv_after := kv_after eff;
            console :=
              (console eff
                 ++ [String.append "Error calling OpenAI API for chat: " e])%list |})
    end.

End MarketChat.

Import Utils.
Import Script.

(** ** Vocabulary of the properties *)

(** The stored record [{timestamps: [t1, ..., tn]}] of integer
    timestamps. *)
Definition ints (ts : list Z) : json := JArr (List.map JNum ts).

Definition record (ts : list Z) : json := JObj [("timestamps", ints ts)].

(** The timestamps strictly inside the window that ends at [now]. *)
Definition prune (now : Z) (ts : list Z) : list Z :=
  List.filter (fun t => now - RATE_LIMIT_WINDOW_SECONDS <? t) ts.

(** The sequence a successful read yields: the [timestamps] member
    when it is there, the empty sequence when the key is absent. *)
Definition reads (request : Request) (now : Z) (kv : KV.namespace) (ts : list Z) : Prop :=
  exists data,
    KV.get now (kvKey request) kv = Normal data /\
    member_or "timestamps" data (JArr []) = ints ts.

Definition with_kv (env : Env) (kv : option KV.namespace) : Env :=
  {| RATE_LIMIT_KV := kv; TURNSTILE_SECRET_KEY := TURNSTILE_SECRET_KEY env |}.

(** Successive calls of [checkRateLimit] against one binding. *)
Fixpoint run_checks (env : Env) (calls : list (Request * Z))
  : list (completion Decision) * Env :=
  match calls with
  | [] => ([], env)
  | (request, now) :: rest =>
      let '(d, eff) := checkRateLimit request env now in
      let '(ds, env') := run_checks (with_kv env (kv_after eff)) rest in
      (d :: ds, env')
  end.

(** The four objects [checkRateLimit] builds. *)
Definition allow_no_store : Decision :=
  {| allowed := true; error := None; retryAfter := None;
     remaining := None; resetAt := None |}.

Definition allow (left reset : Z) : Decision :=
  {| allowed := true; error := None; retryAfter := None;
     remaining := Some left; resetAt := Some reset |}.

Definition reject (retry : jsnum) : Decision :=
  {| allowed := false; error := Some "Rate limit exceeded. Please try again later.";
     retryAfter := Some retry; remaining := Some 0; resetAt := None |}.

Definition allow_on_error : Decision :=
  {| allowed := true; error := Some "Rate limit check failed";
     retryAfter := None; remaining := None; resetAt := None |}.

(** The binding after a successful [put] of [{timestamps: items}] at
    [now]. *)
Definition stored (key : string) (now : Z) (items : list json) (kv : KV.namespace)
  : KV.namespace :=
  {| KV.entries :=
       <[key := {| KV.entry_text := KV.Json (JObj [("timestamps", JArr items)]);
                   KV.entry_expiration := now + 70 |}]> (KV.entries kv);
     KV.get_fails := KV.get_fails kv;
     KV.put_fails := KV.put_fails kv |}.

(** Every way the [try] block can end: an exception, a rejection
    over at least 20 retained entries, or an admission that appends
    [now] to fewer than 20. *)
Inductive try_outcome (key : string) (now : Z) (kv : KV.namespace)
  : completion Decision * KV.namespace -> Prop :=
| try_throws (e : string) :
    try_outcome key now kv (Throw e, kv)
| try_rejects (items : list json) (retry : jsnum) :
    (20 <= length items)%nat ->
    plus_minus (List.hd JNull items) 60 now = Normal retry ->
    try_outcome key now kv (Normal (reject (Math_max 1 retry)), kv)
| try_allows (items : list json) :
    (length items < 20)%nat ->
    KV.put_fails kv = false ->
    try_outcome key now kv
      (Normal (allow (20 - Z.of_nat (length (items ++ [JNum now]))) (now + 60)),
       stored key now (items ++ [JNum now]) kv).

(** A stored record that holds at most 20 timestamps. *)
Definition bounded (e : KV.entry) : Prop :=
  exists items,
    KV.entry_text e = KV.Json (JObj [("timestamps", JArr items)]) /\
    (length items <= 20)%nat.

Definition all_bounded (env : Env) : Prop :=
  forall kv key e,
    RATE_LIMIT_KV env = Some kv -> KV.entries kv !! key = Some e -> bounded e.

(** The two results of [verifyTurnstileToken]. *)
Definition failure (message : string) : Turnstile.Verification :=
  {| Turnstile.success := false; Turnstile.error := Some message |}.

Definition verified : Turnstile.Verification :=
  {| Turnstile.success := true; Turnstile.error := None |}.

(** The page once the holder has been cleared and the buttons
    re-enabled. *)
Definition released (p : Page) : Page :=
  setButtonsEnabled true (set_currentRequestId None p).

Definition all_enabled (p : Page) : Prop :=
  List.Forall (fun b => disabled b = false) (buttons p).

(** The poller of [owner] after [n] polls. *)
Definition poller_at (owner : string) (n : nat) : Poller :=
  {| requestId := owner; attempts := n |}.

(** *** Sample inputs *)

Definition from_ip (ip : string) : Request :=
  {| headers_get := fun name =>
       if String.eqb name "CF-Connecting-IP" then Some ip else None |}.

Definition empty_kv : KV.namespace :=
  {| KV.entries := ∅; KV.get_fails := false; KV.put_fails := false |}.

Definition kv_holding (key : string) (t : KV.text) (expires : Z) (put_fails : bool)
  : KV.namespace :=
  {| KV.entries := {[ key := {| KV.entry_text := t; KV.entry_expiration := expires |} ]};
     KV.get_fails := false;
     KV.put_fails := put_fails |}.

Definition env_with (kv : KV.namespace) : Env :=
  {| RATE_LIMIT_KV := Some kv; TURNSTILE_SECRET_KEY := None |}.

Definition env_without_kv : Env :=
  {| RATE_LIMIT_KV := None; TURNSTILE_SECRET_KEY := None |}.

Definition upto (n : nat) : list Z := List.map Z.of_nat (List.seq 0 n).

(** The binding after 20 admitted requests of 1.2.3.4 at t = 0..19. *)
Definition kv_full : KV.namespace :=
  kv_holding "ratelimit:1.2.3.4" (KV.Json (record (upto 20))) 89 false.

(** An empty binding whose writes fail (the store rejects the call). *)
Definition kv_put_down : KV.namespace :=
  {| KV.entries := ∅; KV.get_fails := false; KV.put_fails := true |}.

(** A record whose timestamps are strings rather than integers. *)
Definition string_record : json :=
  JObj [("timestamps", JArr (List.repeat (JStr "9999999999") 20))].

Definition kv_strings : KV.namespace :=
  kv_holding "ratelimit:1.2.3.4" (KV.Json string_record) 1700000050 false.

(** Stored text that is not JSON. *)
Definition kv_garbled : KV.namespace :=
  kv_holding "ratelimit:1.2.3.4" KV.NotJson 1700000050 false.

(** A record whose [timestamps] member is not an array. *)
Definition kv_not_array : KV.namespace :=
  kv_holding "ratelimit:1.2.3.4"
    (KV.Json (JObj [("timestamps", JStr "1700000000")])) 1700000050 false.

(** 20 requests at t = 0..19, one at t = 20, one at t = 61. *)
Definition scenario : list (Request * Z) :=
  List.map (fun t => (from_ip "1.2.3.4", t)) (upto 21 ++ [61])%list.

(** A page at rest with one action button, and the same page while
    the request "r1" holds the lock. *)
Definition idle_page : Page :=
  {| currentTurnstileToken := Some "old-token";
     currentRequestId := None;
     buttons := [{| disabled := false; opacity := "1"; cursor := "pointer" |}];
     turnstileElement := true;
     turnstile := true;
     turnstile_calls := [] |}.

Definition busy_page : Page :=
  {| currentTurnstileToken := Some "token-of-r1";
     currentRequestId := Some "r1";
     buttons := [{| disabled := true; opacity := "0.5"; cursor := "not-allowed" |}];
     turnstileElement := true;
     turnstile := true;
     turnstile_calls := ["reset"; "execute"] |}.

(** *** Sequential use by one identity *)

(** The binding after failure-free checks of one identity whose
    admitted instants are [A], the last write being at [tw]: no record
    yet, or the admitted instants still in the window of [tw], expiring
    70 seconds after it. *)
Definition synced (key : string) (A : list Z) (tw : Z) (kv : KV.namespace) : Prop :=
  KV.get_fails kv = false /\
  KV.put_fails kv = false /\
  List.Forall (fun a => a <= tw) A /\
  ((KV.entries kv !! key = None /\ A = []) \/
   KV.entries kv !! key =
     Some {| KV.entry_text := KV.Json (record (prune tw A));
             KV.entry_expiration := tw + 70 |}).

(** The calls of one request object at the given instants. *)
Definition calls_at (request : Request) (times : list Z) : list (Request * Z) :=
  List.map (fun t => (request, t)) times.

(** The instants whose check was admitted. *)
Fixpoint admitted_times (times : list Z) (ds : list (completion Decision)) : list Z :=
  match times, ds with
  | t :: times', Normal d :: ds' =>
      if allowed d then t :: admitted_times times' ds' else admitted_times times' ds'
  | _ :: times', Throw _ :: ds' => admitted_times times' ds'
  | _, _ => []
  end.

(** [a] lies in the window of 60 seconds that ends at [t]. *)
Definition in_window (t a : Z) : bool := (t - 60 <? a) && (a <=? t).

(** At most 20 of the instants [A] lie in any window of 60 seconds. *)
Definition window_bounded (A : list Z) : Prop :=
  forall t, (length (List.filter (in_window t) A) <= 20)%nat.

(** Three instants in order, two of them in the same second. *)
Definition sample_times : list Z := [5; 5; 30].

(** *** Shape of an identity *)

Fixpoint has_comma (s : string) : bool :=
  match s with
  | String c rest => Ascii.eqb c ","%char || has_comma rest
  | EmptyString => false
  end.

Definition starts_with_space (s : string) : bool :=
  match s with
  | String c _ => is_space c
  | EmptyString => false
  end.

Fixpoint ends_with_space (s : string) : bool :=
  match s with
  | EmptyString => false
  | String c EmptyString => is_space c
  | String _ rest => ends_with_space rest
  end.

(** *** Decimal strings *)

Fixpoint all_digits (s : string) : bool :=
  match s with
  | String c rest =>
      match digit_of c with
      | Some _ => all_digits rest
      | None => false
      end
  | EmptyString => true
  end.

(** *** The lock as a state machine *)

Definition all_disabled (p : Page) : Prop :=
  List.Forall (fun b => disabled b = true) (buttons p).

(** The buttons are disabled while a request holds the lock and
    enabled while none does. *)
Definition lock_consistent (p : Page) : Prop :=
  match currentRequestId p with
  | Some _ => all_disabled p
  | None => all_enabled p
  end.

(** What can happen on the page: a call of [getTurnstileToken], a run
    of some acquisition's interval callback, a call of
    [completeRequest], the widget delivering a token. *)
Inductive Event : Type :=
| Acquire (fresh : string)
| Poll (poller : Poller)
| Complete (requestId : Ident)
| Refresh (token : string).

Definition step (p : Page) (e : Event) : Page :=
  match e with
  | Acquire fresh => snd (getTurnstileToken fresh p)
  | Poll poller => snd (checkToken poller p)
  | Complete requestId => completeRequest requestId p
  | Refresh token => onTurnstileRefresh token p
  end.

(** An idle page on which the widget element is missing. *)
Definition page_without_widget : Page :=
  {| currentTurnstileToken := None;
     currentRequestId := None;
     buttons := [{| disabled := false; opacity := "1"; cursor := "pointer" |}];
     turnstileElement := false;
     turnstile := false;
     turnstile_calls := [] |}.

(** *** Sample requests of the market-chat handler *)

Definition chat_request (method : string) (body : json) : MarketChat.Incoming :=
  {| MarketChat.method := method;
     MarketChat.request := from_ip "1.2.3.4";
     MarketChat.request_json := Normal body |}.

Definition chat_bindings (kv : KV.namespace) (secret : string) : MarketChat.Bindings :=
  {| MarketChat.env :=
       {| RATE_LIMIT_KV := Some kv; TURNSTILE_SECRET_KEY := Some secret |};
     MarketChat.OPENAI_BASE_URL := None;
     MarketChat.OPENAI_API_KEY := Some "sk-test" |}.

(** Remote services that cannot be reached, and a completion service
    that answers. *)
Definition siteverify_offline : Turnstile.Siteverify :=
  fun _ _ => Throw "fetch failed".

Definition completions_offline : MarketChat.Completions :=
  fun _ _ _ => Throw "fetch failed".

Definition completions_answering : MarketChat.Completions :=
  fun _ _ _ =>
    Normal {| MarketChat.ok := true;
              MarketChat.text := Normal "";
              MarketChat.json_of :=
                Normal (JObj [("choices",
                               JArr [JObj [("message",
                                            JObj [("content", JStr "answer")])]])]) |}.

(** ** The coercions on sample values *)

Example to_number_digits : ToNumber (JStr "9999999999") = Normal (Num 9999999999).
Proof. reflexivity. Qed.

Example number_to_string_60 : NumberToString 60 = "60".
Proof. reflexivity. Qed.

Example number_to_string_neg : NumberToString (-1205) = "-1205".
Proof. reflexivity. Qed.

Example number_to_string_0 : NumberToString 0 = "0".
Proof. reflexivity. Qed.

Example trim_example : trim "  10.0.0.1 " = "10.0.0.1".
Proof. reflexivity. Qed.

Example before_comma_example : before_comma "1.2.3.4, 5.6.7.8" = "1.2.3.4".
Proof. reflexivity. Qed.

Example array_to_string : ToString (JArr [JNum 1; JNull; JStr "a"]) = Normal "1,,a".
Proof. reflexivity. Qed.

Example object_to_number : ToNumber (JObj [("a", JNum 1)]) = Normal NaN.
Proof. reflexivity. Qed.

Example shadowed_toString_throws :
  gt_num (JArr [JObj [("toString", JNum 1)]]) 0
  = Throw "TypeError: Cannot convert object to primitive value".
Proof. reflexivity. Qed.

(** ** Properties of the rate limiter *)

Lemma filter_ints (w : Z) (ts : list Z) :
  filter_gt (List.map JNum ts) w
  = Normal (List.map JNum (List.filter (fun t => w <? t) ts)).
Proof.
  induction ts as [|t ts IH]; simpl; [reflexivity|].
  rewrite IH. unfold gt_num; simpl. now destruct (w <? t).
Qed.

(** An entry the filter could compare can also be added to: the
    conversion that [+] needs is the one [>] has already done. *)
Lemma compared_adds (v : json) (w a b : Z) (keep : bool) :
  gt_num v w = Normal keep -> exists r, plus_minus v a b = Normal r.
Proof.
  unfold gt_num, plus_minus, ToNumber.
  destruct v as [|[|]|n|s|items|members]; intros H; eauto.
  - cbn [ToString]. destruct (StringToNumber (String.append _ _)); eauto.
  - destruct (ToString (JArr items)); [|discriminate].
    destruct (StringToNumber (String.append _ _)); eauto.
  - destruct (ToString (JObj members)); [|discriminate].
    destruct (StringToNumber (String.append _ _)); eauto.
Qed.

Lemma hd_ints (ts : list Z) :
  List.hd JNull (List.map JNum ts) = match ts with [] => JNull | t :: _ => JNum t end.
Proof. destruct ts; reflexivity. Qed.

Lemma prune_spec (now t : Z) (ts : list Z) :
  In t (prune now ts) <-> In t ts /\ ~ t <= now - 60.
Proof.
  unfold prune, RATE_LIMIT_WINDOW_SECONDS. rewrite List.filter_In, Z.ltb_lt.
  split; intros [Hin Hlt]; split; try assumption; lia.
Qed.

(** What the [try] block does on integer timestamps. *)
Lemma try_on_ints (key : string) (now : Z) (kv : KV.namespace) (data : json) (ts : list Z) :
  KV.get now key kv = Normal data ->
  member_or "timestamps" data (JArr []) = ints ts ->
  checkRateLimit_try key now kv =
    if 20 <=? Z.of_nat (length (prune now ts)) then
      (Normal (reject (Num (Z.max 1 (List.hd 0 (prune now ts) + 60 - now)))), kv)
    else
      match KV.put now key (record (prune now ts ++ [now])) 70 kv with
      | (Throw e, kv') => (Throw e, kv')
      | (Normal _, kv') =>
          (Normal (allow (20 - Z.of_nat (length (prune now ts ++ [now]))) (now + 60)), kv')
      end.
Proof.
  intros Hget Hmem. unfold checkRateLimit_try. rewrite Hget, Hmem.
  unfold ints, filter_window. rewrite filter_ints.
  fold (prune now ts). rewrite !length_map.
  unfold RATE_LIMIT_MAX_REQUESTS, RATE_LIMIT_WINDOW_SECONDS.
  destruct (20 <=? Z.of_nat (length (prune now ts))) eqn:Hfull.
  - rewrite hd_ints. destruct (prune now ts) as [|t0 rest] eqn:Hp.
    + simpl in Hfull. discriminate.
    + reflexivity.
  - unfold record, ints. rewrite List.map_app. simpl.
    change (60 + 10) with 70.
    destruct (KV.put now key _ 70 kv) as [[u|e] kv']; [|reflexivity].
    rewrite !length_app, !length_map. reflexivity.
Qed.


Lemma put_ok (now : Z) (key : string) (v : json) (ttl : Z) (kv : KV.namespace) :
  KV.put_fails kv = false ->
  KV.put now key v ttl kv =
    (Normal tt,
     {| KV.entries := <[key := {| KV.entry_text := KV.Json v;
                                  KV.entry_expiration := now + ttl |}]> (KV.entries kv);
        KV.get_fails := KV.get_fails kv;
        KV.put_fails := KV.put_fails kv |}).
Proof. intros H. unfold KV.put. now rewrite H. Qed.

Lemma put_throws (now : Z) (key : string) (v : json) (ttl : Z) (kv : KV.namespace) :
  KV.put_fails kv = true ->
  KV.put now key v ttl kv = (Throw "KV PUT failed", kv).
Proof. intros H. unfold KV.put. now rewrite H. Qed.

(** A read throws when the store is unreachable or when the live
    entry under the key is not JSON, and in no other case. *)
Lemma get_throws (now : Z) (key : string) (kv : KV.namespace) (e : string) :
  KV.get now key kv = Throw e <->
  (KV.get_fails kv = true /\ e = "KV GET failed") \/
  (KV.get_fails kv = false /\
   exists entry,
     KV.entries kv !! key = Some entry /\
     now < KV.entry_expiration entry /\
     KV.entry_text entry = KV.NotJson /\
     e = "SyntaxError: Unexpected token in JSON").
Proof.
  unfold KV.get. destruct (KV.get_fails kv).
  - split.
    + intros [= <-]. left. now split.
    + intros [[_ ->]|[Hf _]]; [reflexivity|discriminate].
  - destruct (KV.entries kv !! key) as [entry|].
    + destruct (Z.leb_spec (KV.entry_expiration entry) now) as [Hexp|Hlive].
      * split; [discriminate|]. intros [[Hf _]|(_ & x & [= <-] & Hlt & _)]; [discriminate|lia].
      * destruct (KV.entry_text entry) eqn:Htext.
        -- split.
           ++ intros [= <-]. right. split; [reflexivity|]. exists entry. now repeat split.
           ++ intros [[Hf _]|(_ & x & _ & _ & _ & ->)]; [discriminate|reflexivity].
        -- split; [discriminate|].
           intros [[Hf _]|(_ & x & [= <-] & _ & Hnj & _)]; [discriminate|congruence].
    + split; [discriminate|]. intros [[Hf _]|(_ & x & Hx & _)]; discriminate.
Qed.

(** A record put at [now] is read back until [now + 70] and is gone
    from then on. *)
Lemma get_stored (key : string) (now now' : Z) (items : list json) (kv : KV.namespace) :
  KV.get_fails kv = false ->
  KV.get now' key (stored key now items kv) =
    if now + 70 <=? now' then Normal JNull
    else Normal (JObj [("timestamps", JArr items)]).
Proof.
  intros Hf. unfold KV.get, stored. cbn [KV.get_fails KV.entries]. rewrite Hf.
  rewrite lookup_insert_eq. cbn [KV.entry_expiration KV.entry_text].
  now destruct (now + 70 <=? now').
Qed.

Lemma try_inv (key : string) (now : Z) (kv : KV.namespace) :
  try_outcome key now kv (checkRateLimit_try key now kv).
Proof.
  unfold checkRateLimit_try.
  destruct (KV.get now key kv) as [data|e]; [|constructor].
  destruct (filter_window _ _) as [items|e]; [|constructor].
  unfold RATE_LIMIT_MAX_REQUESTS, RATE_LIMIT_WINDOW_SECONDS.
  destruct (20 <=? Z.of_nat (length items)) eqn:Hfull.
  - apply Z.leb_le in Hfull.
    destruct (plus_minus (List.hd JNull items) 60 now) as [retry|e] eqn:Hretry;
      [|constructor].
    apply (try_rejects key now kv items retry); [lia|assumption].
  - apply Z.leb_gt in Hfull. change (60 + 10) with 70.
    destruct (KV.put_fails kv) eqn:Hput.
    + rewrite put_throws by assumption. constructor.
    + rewrite put_ok by assumption. apply try_allows; [lia|assumption].
Qed.

Lemma strongly_sorted_filter (f : Z -> bool) (l : list Z) :
  StronglySorted Z.le l -> StronglySorted Z.le (List.filter f l).
Proof.
  induction 1 as [|a l Hs IH Hall]; simpl; [constructor|].
  destruct (f a); [|assumption].
  constructor; [assumption|].
  rewrite List.Forall_forall in *. intros x Hx.
  apply List.filter_In in Hx. now apply Hall.
Qed.

Lemma hd_least (l : list Z) :
  StronglySorted Z.le l -> List.Forall (fun t => List.hd 0 l <= t) l.
Proof.
  intros Hs. destruct l as [|a l]; [constructor|].
  inversion Hs; subst. constructor; [simpl; lia|assumption].
Qed.

Lemma strongly_sorted_snoc (l : list Z) (x : Z) :
  StronglySorted Z.le l ->
  List.Forall (fun t => t <= x) l ->
  StronglySorted Z.le (l ++ [x]).
Proof.
  induction 1 as [|a l Hs IH Hall]; intros Hle; simpl.
  - constructor; constructor.
  - inversion Hle as [|? ? Hax Hlx]; subst. constructor; [now apply IH|].
    apply List.Forall_app. split; [assumption|]. now constructor.
Qed.

(** With a clock that does not run backwards the stored sequence stays
    in chronological order, so that its first entry is its oldest. *)
Lemma appended_sorted (now : Z) (ts : list Z) :
  StronglySorted Z.le ts ->
  List.Forall (fun t => t <= now) ts ->
  StronglySorted Z.le (prune now ts ++ [now]) /\
  List.Forall (fun t => t <= now) (prune now ts ++ [now]).
Proof.
  intros Hs Hle.
  assert (Hp : List.Forall (fun t => t <= now) (prune now ts)).
  { rewrite List.Forall_forall in *. intros t Ht.
    apply List.filter_In in Ht. now apply Hle. }
  split.
  - apply strongly_sorted_snoc; [now apply strongly_sorted_filter|assumption].
  - apply List.Forall_app. split; [assumption|]. constructor; [lia|constructor].
Qed.

(** C1: when at least 20 stored timestamps are strictly greater than
    [now - 60], the check is rejected with
    [retryAfter = max(1, first remaining timestamp + 60 - now)] and
    [remaining = 0]; nothing is appended and the store is left as it
    was. The first remaining timestamp is the oldest one whenever the
    stored sequence is in chronological order. *)
Theorem C1_reject_when_window_full
  (request : Request) (env : Env) (kv : KV.namespace) (now : Z) (ts : list Z) :
  RATE_LIMIT_KV env = Some kv ->
  reads request now kv ts ->
  20 <= Z.of_nat (length (prune now ts)) ->
  checkRateLimit request env now =
    (Normal {| allowed := false;
               error := Some "Rate limit exceeded. Please try again later.";
               retryAfter := Some (Num (Z.max 1 (List.hd 0 (prune now ts) + 60 - now)));
               remaining := Some 0;
               resetAt := None |},
     {| kv_after := Some kv; console := [] |})
  /\ 1 <= Z.max 1 (List.hd 0 (prune now ts) + 60 - now)
  /\ (StronglySorted Z.le ts ->
      List.Forall (fun t => List.hd 0 (prune now ts) <= t) (prune now ts)).
Proof.
  intros Hkv (data & Hget & Hmem) Hfull. split; [|split].
  - unfold checkRateLimit. rewrite Hkv.
    rewrite (try_on_ints _ _ _ _ _ Hget Hmem).
    apply Z.leb_le in Hfull. rewrite Hfull. reflexivity.
  - lia.
  - intros Hs. apply hd_least. now apply strongly_sorted_filter.
Qed.

Lemma C1_reject_when_window_full_witness :
  RATE_LIMIT_KV (env_with kv_full) = Some kv_full /\
  reads (from_ip "1.2.3.4") 20 kv_full (upto 20) /\
  20 <= Z.of_nat (length (prune 20 (upto 20))) /\
  checkRateLimit (from_ip "1.2.3.4") (env_with kv_full) 20 =
    (Normal (reject (Num 40)), {| kv_after := Some kv_full; console := [] |}).
Proof.
  assert (H1 : RATE_LIMIT_KV (env_with kv_full) = Some kv_full) by reflexivity.
  assert (H2 : reads (from_ip "1.2.3.4") 20 kv_full (upto 20)).
  { exists (record (upto 20)). split; vm_compute; reflexivity. }
  assert (H3 : 20 <= Z.of_nat (length (prune 20 (upto 20)))) by (vm_compute; discriminate).
  split; [exact H1|]. split; [exact H2|]. split; [exact H3|].
  exact (proj1 (C1_reject_when_window_full _ _ _ _ _ H1 H2 H3)).
Defined.

(** C2, as stated, fails when the write throws: with a configured
    store, a successful read of the empty sequence and a failing
    [put], nothing is persisted and the decision carries no
    [remaining] and no [resetAt]. *)
Lemma C2_counterexample :
  RATE_LIMIT_KV (env_with kv_put_down) = Some kv_put_down /\
  reads (from_ip "1.2.3.4") 100 kv_put_down [] /\
  Z.of_nat (length (prune 100 [])) < 20 /\
  checkRateLimit (from_ip "1.2.3.4") (env_with kv_put_down) 100 =
    (Normal allow_on_error,
     {| kv_after := Some kv_put_down;
        console := ["Rate limit check error: KV PUT failed"] |}) /\
  remaining allow_on_error <> Some (20 - Z.of_nat (length (prune 100 [] ++ [100]))) /\
  resetAt allow_on_error <> Some (100 + 60) /\
  KV.entries kv_put_down !! kvKey (from_ip "1.2.3.4") = None.
Proof.
  split; [reflexivity|]. split.
  { exists JNull. split; reflexivity. }
  split; [reflexivity|]. split; [reflexivity|].
  split; [discriminate|]. split; [discriminate|]. reflexivity.
Qed.

(** C2 (amended): with a configured store, a successful read of
    integer timestamps (none when the key is absent) and a write that
    succeeds, the sequence is pruned of every timestamp [<= now - 60];
    if fewer than 20 remain, [now] is appended, the sequence is put
    under the caller's key with TTL 60 + 10 = 70 seconds, and the
    decision is an admission with [remaining = 20 - newCount] and
    [resetAt = now + 60]. *)
Theorem C2_allow_below_limit
  (request : Request) (env : Env) (kv : KV.namespace) (now : Z) (ts : list Z) :
  RATE_LIMIT_KV env = Some kv ->
  reads request now kv ts ->
  Z.of_nat (length (prune now ts)) < 20 ->
  KV.put_fails kv = false ->
  (forall t, In t (prune now ts) <-> In t ts /\ ~ t <= now - 60) /\
  exists kv',
    KV.put now (kvKey request) (record (prune now ts ++ [now])) (60 + 10) kv
      = (Normal tt, kv') /\
    checkRateLimit request env now =
      (Normal {| allowed := true;
                 error := None;
                 retryAfter := None;
                 remaining := Some (20 - Z.of_nat (length (prune now ts ++ [now])));
                 resetAt := Some (now + 60) |},
       {| kv_after := Some kv'; console := [] |}) /\
    KV.entries kv' !! kvKey request =
      Some {| KV.entry_text := KV.Json (record (prune now ts ++ [now]));
              KV.entry_expiration := now + 70 |}.
Proof.
  intros Hkv (data & Hget & Hmem) Hlt Hput.
  split; [intros t; apply prune_spec|].
  eexists. split; [apply put_ok; assumption|]. split.
  - unfold checkRateLimit. rewrite Hkv.
    rewrite (try_on_ints _ _ _ _ _ Hget Hmem).
    apply Z.leb_gt in Hlt. rewrite Hlt.
    rewrite put_ok by assumption. reflexivity.
  - simpl. apply lookup_insert_eq.
Qed.

Lemma C2_allow_below_limit_witness :
  RATE_LIMIT_KV (env_with empty_kv) = Some empty_kv /\
  reads (from_ip "1.2.3.4") 100 empty_kv [] /\
  Z.of_nat (length (prune 100 [])) < 20 /\
  KV.put_fails empty_kv = false /\
  checkRateLimit (from_ip "1.2.3.4") (env_with empty_kv) 100 =
    (Normal (allow 19 160),
     {| kv_after :=
          Some (kv_holding "ratelimit:1.2.3.4" (KV.Json (record [100])) 170 false);
        console := [] |}).
Proof.
  assert (H1 : RATE_LIMIT_KV (env_with empty_kv) = Some empty_kv) by reflexivity.
  assert (H2 : reads (from_ip "1.2.3.4") 100 empty_kv []).
  { exists JNull. split; reflexivity. }
  assert (H3 : Z.of_nat (length (prune 100 [])) < 20) by reflexivity.
  assert (H4 : KV.put_fails empty_kv = false) by reflexivity.
  split; [exact H1|]. split; [exact H2|]. split; [exact H3|]. split; [exact H4|].
  destruct (C2_allow_below_limit _ _ _ _ _ H1 H2 H3 H4) as [_ (kv' & Hp & Hc & _)].
  rewrite Hc. vm_compute in Hp. injection Hp as <-. reflexivity.
Defined.

(** One check leaves the binding alone, or appends [now] to fewer than
    20 retained entries and puts the result under the caller's key. *)
Lemma check_writes (request : Request) (env : Env) (kv : KV.namespace) (now : Z) :
  RATE_LIMIT_KV env = Some kv ->
  kv_after (snd (checkRateLimit request env now)) = Some kv \/
  exists retained,
    (length retained < 20)%nat /\
    kv_after (snd (checkRateLimit request env now))
      = Some (stored (kvKey request) now (retained ++ [JNum now]) kv).
Proof.
  intros Hkv. unfold checkRateLimit. rewrite Hkv.
  destruct (try_inv (kvKey request) now kv) as [e|items Hfull|items Hlt Hput]; simpl.
  - now left.
  - now left.
  - right. exists items. now split.
Qed.

Lemma check_keeps_bounded (request : Request) (env : Env) (now : Z) :
  all_bounded env ->
  all_bounded (with_kv env (kv_after (snd (checkRateLimit request env now)))).
Proof.
  intros Hall kv' key e Hkv' Hlook. simpl in Hkv'.
  destruct (RATE_LIMIT_KV env) as [kv|] eqn:Hkv.
  - destruct (check_writes request env kv now Hkv) as [Hsame|(items & Hlen & Hst)].
    + rewrite Hsame in Hkv'. injection Hkv' as <-. eapply Hall; eauto.
    + rewrite Hst in Hkv'. injection Hkv' as <-.
      unfold stored in Hlook. cbn [KV.entries] in Hlook.
      destruct (decide (kvKey request = key)) as [<-|Hne].
      * rewrite lookup_insert_eq in Hlook. injection Hlook as <-.
        exists (items ++ [JNum now])%list. split; [reflexivity|].
        rewrite length_app. simpl. lia.
      * rewrite lookup_insert_ne in Hlook by assumption. eapply Hall; eauto.
  - unfold checkRateLimit in Hkv'. rewrite Hkv in Hkv'. discriminate.
Qed.

(** C10: every sequence [checkRateLimit] writes holds at most 20
    timestamps. A check either leaves the binding as it was (the
    reject branch and the error path write nothing) or appends [now]
    to fewer than 20 retained entries and puts that record under the
    caller's key; hence a binding whose records are bounded stays so
    through any number of checks, whatever the requests and the
    instants. *)
Theorem C10_written_sequences_bounded :
  (forall request env kv now,
      RATE_LIMIT_KV env = Some kv ->
      kv_after (snd (checkRateLimit request env now)) = Some kv \/
      exists retained,
        (length retained < 20)%nat /\
        (length (retained ++ [JNum now]) <= 20)%nat /\
        kv_after (snd (checkRateLimit request env now))
          = Some (stored (kvKey request) now (retained ++ [JNum now]) kv)) /\
  (forall calls env, all_bounded env -> all_bounded (snd (run_checks env calls))).
Proof.
  split.
  - intros request env kv now Hkv.
    destruct (check_writes request env kv now Hkv) as [H|(retained & Hlt & H)];
      [now left|right].
    exists retained. split; [assumption|]. split; [|assumption].
    rewrite length_app. simpl. lia.
  - induction calls as [|[request now] rest IH]; intros env Hall; simpl; [assumption|].
    destruct (checkRateLimit request env now) as [d eff] eqn:Hc.
    specialize (IH (with_kv env (kv_after eff))).
    destruct (run_checks (with_kv env (kv_after eff)) rest) as [ds env'] eqn:Hr.
    simpl. apply IH.
    pose proof (check_keeps_bounded request env now Hall) as Hb.
    now rewrite Hc in Hb.
Qed.

Lemma C10_written_sequences_bounded_witness :
  all_bounded (env_with empty_kv) /\
  all_bounded (snd (run_checks (env_with empty_kv) scenario)).
Proof.
  assert (H : all_bounded (env_with empty_kv)).
  { intros kv key e Hkv Hlook. injection Hkv as <-. simpl in Hlook.
    rewrite lookup_empty in Hlook. discriminate. }
  split; [exact H|].
  exact (proj2 C10_written_sequences_bounded scenario (env_with empty_kv) H).
Defined.

(** C3, as stated, fails at its last step: the check at t = 61 leaves
    [remaining = 1], not 19, because only the timestamps 0 and 1 have
    left the window. *)
Lemma C3_counterexample :
  exists d,
    List.nth_error (fst (run_checks (env_with empty_kv) scenario)) 21 = Some (Normal d) /\
    allowed d = true /\
    remaining d = Some 1 /\
    remaining d <> Some 19.
Proof.
  exists (allow 1 121). split; [vm_compute; reflexivity|].
  split; [reflexivity|]. split; [reflexivity|discriminate].
Qed.

(** C3 (amended): from an empty store, 20 checks of one identity at
    t = 0..19 are admitted with [remaining] 19 down to 0, the 21st at
    t = 20 is rejected with [retryAfter = 40], and the check at t = 61
    is admitted with [remaining = 1]; the record then holds the 19
    timestamps 2..19 and 61. *)
Theorem C3_end_to_end :
  fst (run_checks (env_with empty_kv) scenario) =
    (List.map (fun t => Normal (allow (19 - t) (t + 60))) (upto 20)
       ++ [Normal (reject (Num 40)); Normal (allow 1 121)])%list /\
  RATE_LIMIT_KV (snd (run_checks (env_with empty_kv) scenario)) =
    Some (kv_holding "ratelimit:1.2.3.4"
            (KV.Json (record (List.map (fun t => t + 2) (upto 18) ++ [61])%list)) 131 false).
Proof. split; vm_compute; reflexivity. Qed.

(** C4, as stated, fails for a malformed value that the check can
    still process: a record of 20 numeric strings is read without an
    exception, every string compares greater than the window start,
    and the check is rejected. *)
Lemma C4_counterexample :
  KV.get 1700000000 (kvKey (from_ip "1.2.3.4")) kv_strings = Normal string_record /\
  (forall ts, member_or "timestamps" string_record (JArr []) <> ints ts) /\
  checkRateLimit (from_ip "1.2.3.4") (env_with kv_strings) 1700000000 =
    (Normal (reject (Num 998299999960)),
     {| kv_after := Some kv_strings; console := [] |}) /\
  allowed (reject (Num 998299999960)) = false.
Proof.
  split; [vm_compute; reflexivity|]. split.
  - intros ts H. vm_compute in H. destruct ts; discriminate.
  - split; [vm_compute; reflexivity|reflexivity].
Qed.

Lemma caught (request : Request) (env : Env) (kv : KV.namespace) (now : Z) (e : string) :
  RATE_LIMIT_KV env = Some kv ->
  checkRateLimit_try (kvKey request) now kv = (Throw e, kv) ->
  checkRateLimit request env now =
    (Normal allow_on_error,
     {| kv_after := Some kv;
        console := [String.append "Rate limit check error: " e] |}).
Proof.
  intros Hkv Htry. unfold checkRateLimit. rewrite Hkv, Htry. reflexivity.
Qed.

Example not_an_array_is_caught :
  checkRateLimit (from_ip "1.2.3.4") (env_with kv_not_array) 1700000000 =
    (Normal allow_on_error,
     {| kv_after := Some kv_not_array;
        console :=
          ["Rate limit check error: TypeError: timestamps.filter is not a function"] |}).
Proof. vm_compute. reflexivity. Qed.

(** C4 (amended): no call of [checkRateLimit] throws. Whenever the read
    throws (the store is unreachable, or the stored text is not JSON),
    or the stored [timestamps] member is truthy but not an array, or
    the write is attempted and throws, the decision is
    [{allowed: true, error: 'Rate limit check failed'}] and the store is
    left as it was. A stored value without a truthy [timestamps]
    member counts as the empty sequence, so the check is admitted. *)
Theorem C4_fail_open (request : Request) (env : Env) (kv : KV.namespace) (now : Z) :
  RATE_LIMIT_KV env = Some kv ->
  (exists d eff, checkRateLimit request env now = (Normal d, eff)) /\
  (forall e,
      KV.get now (kvKey request) kv = Throw e ->
      checkRateLimit request env now =
        (Normal allow_on_error,
         {| kv_after := Some kv;
            console := [String.append "Rate limit check error: " e] |})) /\
  (forall data,
      KV.get now (kvKey request) kv = Normal data ->
      (forall items, member_or "timestamps" data (JArr []) <> JArr items) ->
      fst (checkRateLimit request env now) = Normal allow_on_error /\
      kv_after (snd (checkRateLimit request env now)) = Some kv) /\
  (forall data items,
      KV.get now (kvKey request) kv = Normal data ->
      filter_window (member_or "timestamps" data (JArr [])) (now - 60) = Normal items ->
      (length items < 20)%nat ->
      KV.put_fails kv = true ->
      checkRateLimit request env now =
        (Normal allow_on_error,
         {| kv_after := Some kv;
            console := ["Rate limit check error: KV PUT failed"] |})) /\
  (forall data,
      KV.get now (kvKey request) kv = Normal data ->
      member_or "timestamps" data (JArr []) = JArr [] ->
      exists d, fst (checkRateLimit request env now) = Normal d /\ allowed d = true).
Proof.
  intros Hkv. split; [|split; [|split; [|split]]].
  - unfold checkRateLimit. rewrite Hkv.
    destruct (checkRateLimit_try _ _ _) as [[d|e] kv']; eauto.
  - intros e Hget. apply caught; [assumption|].
    unfold checkRateLimit_try. now rewrite Hget.
  - intros data Hget Hshape.
    assert (Htry : exists e, checkRateLimit_try (kvKey request) now kv = (Throw e, kv)).
    { unfold checkRateLimit_try. rewrite Hget.
      destruct (member_or "timestamps" data (JArr [])) eqn:Hm; simpl; eauto.
      now destruct (Hshape items). }
    destruct Htry as [e Htry]. rewrite (caught _ _ _ _ _ Hkv Htry). now split.
  - intros data items Hget Hfilter Hlt Hput.
    apply (caught _ _ _ _ "KV PUT failed" Hkv).
    unfold checkRateLimit_try. rewrite Hget.
    unfold RATE_LIMIT_WINDOW_SECONDS, RATE_LIMIT_MAX_REQUESTS. rewrite Hfilter.
    assert (Hb : (20 <=? Z.of_nat (length items)) = false) by (apply Z.leb_gt; lia).
    rewrite Hb. now rewrite put_throws.
  - intros data Hget Hmem. unfold checkRateLimit. rewrite Hkv.
    unfold checkRateLimit_try. rewrite Hget, Hmem. simpl.
    destruct (KV.put _ _ _ _ kv) as [[u|e] kv']; simpl; eauto.
Qed.

Lemma C4_fail_open_witness :
  RATE_LIMIT_KV (env_with kv_garbled) = Some kv_garbled /\
  KV.get 1700000000 (kvKey (from_ip "1.2.3.4")) kv_garbled
    = Throw "SyntaxError: Unexpected token in JSON" /\
  checkRateLimit (from_ip "1.2.3.4") (env_with kv_garbled) 1700000000 =
    (Normal allow_on_error,
     {| kv_after := Some kv_garbled;
        console := ["Rate limit check error: SyntaxError: Unexpected token in JSON"] |}).
Proof.
  assert (H1 : RATE_LIMIT_KV (env_with kv_garbled) = Some kv_garbled) by reflexivity.
  assert (H2 : KV.get 1700000000 (kvKey (from_ip "1.2.3.4")) kv_garbled
               = Throw "SyntaxError: Unexpected token in JSON") by (vm_compute; reflexivity).
  split; [exact H1|]. split; [exact H2|].
  exact (proj1 (proj2 (C4_fail_open (from_ip "1.2.3.4") _ _ 1700000000 H1)) _ H2).
Defined.

(** C5, as stated, fails: without a backing store the decision is
    [{allowed: true}] alone, and on the error path it is
    [{allowed: true, error: ...}]; neither carries [remaining] or
    [resetAt]. *)
Lemma C5_counterexample :
  checkRateLimit (from_ip "1.2.3.4") env_without_kv 1700000000 =
    (Normal allow_no_store,
     {| kv_after := None;
        console := ["RATE_LIMIT_KV not configured, skipping rate limiting"] |}) /\
  allowed allow_no_store = true /\
  remaining allow_no_store = None /\
  resetAt allow_no_store = None /\
  fst (checkRateLimit (from_ip "1.2.3.4") (env_with kv_garbled) 1700000000)
    = Normal allow_on_error /\
  remaining allow_on_error = None /\
  resetAt allow_on_error = None.
Proof. repeat split; vm_compute; reflexivity. Qed.

Lemma Math_max_cases (x : jsnum) :
  Math_max 1 x = NaN \/ exists z, Math_max 1 x = Num z /\ 1 <= z.
Proof.
  destruct x as [|z]; simpl; [now left|].
  right. exists (Z.max 1 z). split; [reflexivity|lia].
Qed.

(** C5 (amended): every call returns one of four objects and never
    throws: [{allowed: true}] exactly when no store is configured;
    [{allowed: true, remaining, resetAt}] with [0 <= remaining <= 19] and
    [resetAt = now + 60]; [{allowed: false, error, retryAfter,
    remaining: 0}] where [retryAfter] is the result of [Math.max(1, _)],
    a number [>= 1] (NaN only when the stored entries are not numbers);
    or [{allowed: true, error: 'Rate limit check failed'}] on the error
    path. *)
Theorem C5_decision_shapes (request : Request) (env : Env) (now : Z) :
  exists d eff,
    checkRateLimit request env now = (Normal d, eff) /\
    ((RATE_LIMIT_KV env = None /\ d = allow_no_store) \/
     (RATE_LIMIT_KV env <> None /\
      ((exists left, d = allow left (now + 60) /\ 0 <= left <= 19) \/
       (exists retry,
           d = reject retry /\
           (retry = NaN \/ exists z, retry = Num z /\ 1 <= z)) \/
       d = allow_on_error))).
Proof.
  unfold checkRateLimit. destruct (RATE_LIMIT_KV env) as [kv|] eqn:Hkv.
  - destruct (try_inv (kvKey request) now kv) as [e|items Hfull|items Hlt Hput];
      do 2 eexists; (split; [reflexivity|]); right; (split; [discriminate|]).
    + right; right. reflexivity.
    + right; left. eexists. split; [reflexivity|]. apply Math_max_cases.
    + left. eexists. split; [reflexivity|]. rewrite length_app. simpl. lia.
  - do 2 eexists. split; [reflexivity|]. left. now split.
Qed.

(** ** Properties of Turnstile verification *)

Import Turnstile.

(** The values that count as false in a condition are [null],
    [false], [0] and the empty string. *)
Lemma truthy_false (x : json) :
  truthy x = false <-> x = JNull \/ x = JBool false \/ x = JNum 0 \/ x = JStr "".
Proof.
  split.
  - destruct x as [|b|n|s|items|members]; simpl; intros H; try discriminate.
    + now left.
    + subst b. auto.
    + apply Bool.negb_false_iff, Z.eqb_eq in H. subst n. auto.
    + apply Bool.negb_false_iff, String.eqb_eq in H. subst s. auto.
  - intros [->|[->|[->| ->]]]; reflexivity.
Qed.

(** Exhibit the result of the branch at hand and settle every clause
    that the equations in the context decide. *)
Ltac answered :=
  do 2 eexists; split; [reflexivity|]; split; [congruence|];
  intros _; repeat split; intros; simplify_eq;
  try discriminate; try congruence.

(** The same for a branch that has the answer of the service: the
    clauses about the [success] member are settled by its value. *)
Ltac verdict :=
  do 2 eexists; split; [reflexivity|]; split; [congruence|];
  intros _; repeat split; intros; simplify_eq;
  repeat match goal with
         | H1 : ?a = Normal _, H2 : ?a = _ |- _ => rewrite H1 in H2; simplify_eq
         end;
  simpl in *; simplify_eq; simpl in *;
  try reflexivity; try discriminate; try congruence;
  try match goal with
      | H : _ = JNull \/ _ |- _ =>
          destruct H as [->|[->|[->| ->]]]; simpl in *; discriminate
      | Hb : truthy ?x = false |- _ => apply truthy_false in Hb; tauto
      end.

Lemma truthy_str_some (o : option string) :
  truthy_str o = true <-> exists s, o = Some s /\ s <> "".
Proof.
  destruct o as [s|]; simpl.
  - rewrite Bool.negb_true_iff, String.eqb_neq. split.
    + intros H. exists s. now split.
    + intros (s' & [= <-] & H). exact H.
  - split; [discriminate|]. intros (s & H & _). discriminate.
Qed.

(** What the check of [data.success] yields, in terms of the body the
    service sent. *)
Lemma data_success_cases (data : json) :
  (data = JNull -> exists e, data_success data = Throw e) /\
  (data <> JNull -> member "success" data = None -> data_success data = Normal false) /\
  (forall x, member "success" data = Some x -> data_success data = Normal (truthy x)).
Proof.
  split; [|split].
  - intros ->. simpl. eauto.
  - intros Hnn Hnone. destruct data; simpl in *; try reflexivity; try congruence.
    now rewrite Hnone.
  - intros x Hx. destruct data; simpl in *; try discriminate. now rewrite Hx.
Qed.

(** C6: [verifyTurnstileToken] never throws. With the local-development
    sentinel as secret it reports success whatever the token, even a
    missing one. Otherwise it reports failure when the token is
    missing, when the secret is not configured, when the call to the
    verification service throws, when the response cannot be parsed or
    is [null], and when the service reports failure, that is when the
    [success] member of its answer is [false] (or absent, [null], [0]
    or the empty string); it reports success only when the service
    answers with a [success] member that is none of these, [true] in
    particular. *)
Theorem C6_verification_fails_closed
  (fetch : Siteverify) (token : option string) (env : Env) :
  exists r out,
    verifyTurnstileToken fetch token env = (Normal r, out) /\
    (TURNSTILE_SECRET_KEY env = Some LOCAL_DEV_SECRET -> r = verified) /\
    (TURNSTILE_SECRET_KEY env <> Some LOCAL_DEV_SECRET ->
     (truthy_str token = false -> r = failure "No Turnstile token provided") /\
     (truthy_str (TURNSTILE_SECRET_KEY env) = false -> success r = false) /\
     (forall t k,
         token = Some t -> t <> "" ->
         TURNSTILE_SECRET_KEY env = Some k -> k <> "" ->
         (forall e, fetch k t = Throw e ->
                    r = failure "Security verification error") /\
         (forall response e,
             fetch k t = Normal response -> json_body response = Throw e ->
             r = failure "Security verification error") /\
         (forall response,
             fetch k t = Normal response -> json_body response = Normal JNull ->
             r = failure "Security verification error") /\
         (forall response data,
             fetch k t = Normal response -> json_body response = Normal data ->
             member "success" data = Some (JBool false) ->
             r = failure "Security verification failed") /\
         (forall response data,
             fetch k t = Normal response -> json_body response = Normal data ->
             data <> JNull ->
             member "success" data = None ->
             r = failure "Security verification failed") /\
         (forall response data x,
             fetch k t = Normal response -> json_body response = Normal data ->
             member "success" data = Some x ->
             x = JNull \/ x = JBool false \/ x = JNum 0 \/ x = JStr "" ->
             r = failure "Security verification failed") /\
         (forall response data,
             fetch k t = Normal response -> json_body response = Normal data ->
             member "success" data = Some (JBool true) ->
             r = verified) /\
         (forall response data x,
             fetch k t = Normal response -> json_body response = Normal data ->
             member "success" data = Some x ->
             x <> JNull -> x <> JBool false -> x <> JNum 0 -> x <> JStr "" ->
             r = verified)) /\
     (success r = true ->
      exists t k response data x,
        token = Some t /\ t <> "" /\ TURNSTILE_SECRET_KEY env = Some k /\ k <> "" /\
        fetch k t = Normal response /\ json_body response = Normal data /\
        member "success" data = Some x /\
        x <> JNull /\ x <> JBool false /\ x <> JNum 0 /\ x <> JStr "")).
Proof.
  unfold verifyTurnstileToken. case_bool_decide as Hdev.
  { do 2 eexists. split; [reflexivity|]. split; [reflexivity|]. intros H. now destruct H. }
  destruct (truthy_str token) eqn:Htok; simpl.
  2:{ assert (Hno : forall t, token = Some t -> t <> "" -> False).
      { intros t -> Ht. simpl in Htok.
        apply Bool.negb_false_iff, String.eqb_eq in Htok. contradiction. }
      answered; exfalso; eauto. }
  destruct (truthy_str (TURNSTILE_SECRET_KEY env)) eqn:Hsec; simpl.
  2:{ assert (Hno : forall k, TURNSTILE_SECRET_KEY env = Some k -> k <> "" -> False).
      { intros k Hk Hne. rewrite Hk in Hsec. simpl in Hsec.
        apply Bool.negb_false_iff, String.eqb_eq in Hsec. contradiction. }
      answered; exfalso; eauto. }
  apply truthy_str_some in Htok as (t & -> & Ht).
  apply truthy_str_some in Hsec as (k & Hk & Hkne). rewrite Hk. simpl.
  unfold verifyTurnstileToken_try.
  destruct (fetch k t) as [response|e] eqn:Hfetch; [|answered].
  destruct (json_body response) as [data|e] eqn:Hbody; [|answered].
  destruct data as [|b|n|s|items|members]; simpl;
    [verdict|verdict|verdict|verdict|verdict|].
  destruct (assoc "success" members) as [x|] eqn:Hx; [|verdict].
  destruct (truthy x) eqn:Hb; verdict.
  exists t, k, response, (JObj members), x.
  repeat split; try assumption; intros ->; discriminate.
Qed.

(** ** Properties of the client-side request lock *)

Lemma released_idle (p : Page) : currentRequestId (released p) = None.
Proof. reflexivity. Qed.

Lemma released_enabled (p : Page) : all_enabled (released p).
Proof.
  unfold all_enabled, released. simpl.
  induction (buttons p) as [|b bs IH]; simpl; constructor; [reflexivity|exact IH].
Qed.

Lemma released_twice (p : Page) : released (released p) = released p.
Proof.
  unfold released, setButtonsEnabled, set_currentRequestId. simpl. f_equal.
  rewrite List.map_map. apply List.map_ext. reflexivity.
Qed.

(** C7: while a holder exists, [getTurnstileToken] rejects at once with
    the in-progress message and leaves the page exactly as it was: the
    cached token is not reset, the holder is not replaced, the buttons
    and the widget are not touched, and no poller is started. *)
Theorem C7_acquire_while_held (fresh holder : string) (p : Page) :
  currentRequestId p = Some holder ->
  getTurnstileToken fresh p =
    (Rejected "Please wait for the current request to complete", p).
Proof. intros H. unfold getTurnstileToken. now rewrite H. Qed.

Lemma C7_acquire_while_held_witness :
  currentRequestId busy_page = Some "r1" /\
  getTurnstileToken "r2" busy_page =
    (Rejected "Please wait for the current request to complete", busy_page).
Proof.
  split; [reflexivity|].
  apply (C7_acquire_while_held "r2" "r1" busy_page). reflexivity.
Defined.

(** C8: [completeRequest] clears the holder and re-enables the buttons
    when, and only when, the identifier passed equals the current
    holder; with any other identifier (stale, superseded, [null] or
    [undefined] while a holder exists) the page is untouched; and
    calling it twice with the same identifier is the same as calling
    it once. *)
Theorem C8_release_by_owner_only (requestId : Ident) (p : Page) :
  (strict_eq (currentRequestId p) requestId = true ->
   completeRequest requestId p = released p /\
   currentRequestId (completeRequest requestId p) = None /\
   all_enabled (completeRequest requestId p)) /\
  (strict_eq (currentRequestId p) requestId = false ->
   completeRequest requestId p = p) /\
  (forall holder,
      currentRequestId p = Some holder ->
      requestId <> Id holder ->
      completeRequest requestId p = p) /\
  (forall holder,
      currentRequestId p = Some holder ->
      completeRequest (Id holder) p = released p) /\
  completeRequest requestId (completeRequest requestId p) = completeRequest requestId p.
Proof.
  unfold completeRequest. fold (released p).
  split; [|split; [|split; [|split]]].
  - intros ->. split; [reflexivity|]. split; [reflexivity|apply released_enabled].
  - now intros ->.
  - intros holder Hcur Hne. rewrite Hcur.
    destruct requestId as [| |s]; simpl; try reflexivity.
    destruct (String.eqb holder s) eqn:Heq; [|reflexivity].
    apply String.eqb_eq in Heq. subst. contradiction.
  - intros holder ->. simpl. now rewrite String.eqb_refl.
  - destruct (strict_eq (currentRequestId p) requestId) eqn:Heq.
    + rewrite released_idle. fold (released (released p)).
      destruct (strict_eq None requestId); [apply released_twice|reflexivity].
    + now rewrite Heq.
Qed.

Lemma C8_release_by_owner_only_witness :
  currentRequestId busy_page = Some "r1" /\
  Id "r0" <> Id "r1" /\
  completeRequest (Id "r0") busy_page = busy_page /\
  completeRequest (Id "r1") busy_page = released busy_page.
Proof.
  assert (H1 : currentRequestId busy_page = Some "r1") by reflexivity.
  assert (H2 : Id "r0" <> Id "r1") by discriminate.
  split; [exact H1|]. split; [exact H2|]. split.
  - exact (proj1 (proj2 (proj2 (C8_release_by_owner_only (Id "r0") busy_page))) "r1" H1 H2).
  - exact (proj1 (proj2 (proj2 (proj2 (C8_release_by_owner_only (Id "r1") busy_page)))) "r1" H1).
Defined.

(** A poll that finds no token before the 100th attempt waits and
    changes nothing. *)
Lemma tick_waits (owner : string) (a : nat) (p : Page) :
  truthy_str (currentTurnstileToken p) = false ->
  (S a < 100)%nat ->
  checkToken (poller_at owner a) p = (Waiting (poller_at owner (S a)), p).
Proof.
  intros Htok Hlt. unfold checkToken. rewrite Htok. cbn [attempts requestId poller_at].
  unfold maxAttempts.
  destruct (Nat.leb_spec 100 (S a)) as [Hle|_]; [lia|reflexivity].
Qed.

(** The 100th poll that finds no token rejects with the timeout
    message, and releases the lock if its owner still holds it. *)
Lemma tick_times_out (owner : string) (p : Page) :
  truthy_str (currentTurnstileToken p) = false ->
  checkToken (poller_at owner 99) p =
    (Reject "Turnstile verification timeout",
     if strict_eq (currentRequestId p) (Id owner) then released p else p).
Proof. intros Htok. unfold checkToken. rewrite Htok. reflexivity. Qed.

(** A poll that finds a token resolves with it and with the owner's
    identifier, and leaves the lock held. *)
Lemma tick_resolves (owner token : string) (a : nat) (p : Page) :
  currentTurnstileToken p = Some token ->
  token <> "" ->
  checkToken (poller_at owner a) p = (Resolve token owner, p).
Proof.
  intros Htok Hne. unfold checkToken. rewrite Htok. simpl.
  apply String.eqb_neq in Hne. now rewrite Hne.
Qed.

Lemma poll_waits (owner : string) (n a : nat) (p : Page) :
  truthy_str (currentTurnstileToken p) = false ->
  (a + n < 100)%nat ->
  poll n (poller_at owner a) p = (Waiting (poller_at owner (a + n)), p).
Proof.
  intros Htok. revert a. induction n as [|n IH]; intros a Hlt; simpl.
  - now rewrite Nat.add_0_r.
  - rewrite tick_waits by (assumption || lia).
    rewrite IH by lia. now rewrite Nat.add_succ_r.
Qed.

Lemma poll_split (n m : nat) (poller : Poller) (p : Page) :
  poll (n + m) poller p =
    match poll n poller p with
    | (Waiting poller', p') => poll m poller' p'
    | settled => settled
    end.
Proof.
  revert poller p. induction n as [|n IH]; intros poller p; simpl; [reflexivity|].
  destruct (checkToken poller p) as [[poller'|token owner|message] p']; auto.
Qed.

Lemma poll_times_out (owner : string) (p : Page) :
  truthy_str (currentTurnstileToken p) = false ->
  poll 100 (poller_at owner 0) p =
    (Reject "Turnstile verification timeout",
     if strict_eq (currentRequestId p) (Id owner) then released p else p).
Proof.
  intros Htok. change 100%nat with (99 + 1)%nat. rewrite poll_split.
  rewrite poll_waits by (assumption || lia). simpl poll.
  now rewrite tick_times_out.
Qed.

(** C9: after an acquisition that starts from an idle page, 99 polls
    without a token wait and change nothing, and the 100th rejects with
    the timeout message; the acquisition's identifier being still the
    holder, the holder is cleared and the buttons are re-enabled, so
    the next [getTurnstileToken] is not refused as in progress: it
    takes the lock and starts polling. At any 100th poll without a
    token, the lock is released exactly when the poller's identifier is
    the current holder. *)
Theorem C9_timeout_returns_to_idle (fresh : string) (p : Page) :
  currentRequestId p = None ->
  turnstileElement p = true ->
  exists p1,
    getTurnstileToken fresh p = (Pending (poller_at fresh 0), p1) /\
    currentRequestId p1 = Some fresh /\
    (forall n, (n < 100)%nat ->
               poll n (poller_at fresh 0) p1 = (Waiting (poller_at fresh n), p1)) /\
    poll 100 (poller_at fresh 0) p1 =
      (Reject "Turnstile verification timeout", released p1) /\
    currentRequestId (released p1) = None /\
    all_enabled (released p1) /\
    (forall next, exists p3,
        getTurnstileToken next (released p1) = (Pending (poller_at next 0), p3) /\
        currentRequestId p3 = Some next) /\
    (forall owner q,
        truthy_str (currentTurnstileToken q) = false ->
        checkToken (poller_at owner 99) q =
          (Reject "Turnstile verification timeout",
           if strict_eq (currentRequestId q) (Id owner) then released q else q)).
Proof.
  intros Hidle Hwidget.
  assert (Hacq : forall next q,
             currentRequestId q = None -> turnstileElement q = true ->
             exists q', getTurnstileToken next q = (Pending (poller_at next 0), q') /\
                        currentRequestId q' = Some next /\
                        currentTurnstileToken q' = None).
  { intros next q Hq Hw. unfold getTurnstileToken. rewrite Hq. simpl. rewrite Hw. simpl.
    eexists. split; [reflexivity|]. destruct (turnstile q); now split. }
  destruct (Hacq fresh p Hidle Hwidget) as (p1 & Hget & Hown & Htok).
  assert (Hfalsy : truthy_str (currentTurnstileToken p1) = false) by now rewrite Htok.
  exists p1. split; [exact Hget|]. split; [exact Hown|]. split; [|split].
  - intros n Hn. now rewrite poll_waits by (assumption || lia).
  - rewrite poll_times_out by assumption. rewrite Hown. simpl.
    now rewrite String.eqb_refl.
  - split; [reflexivity|]. split; [apply released_enabled|]. split.
    + intros next.
      assert (Hw1 : turnstileElement (released p1) = true).
      { unfold getTurnstileToken in Hget. rewrite Hidle in Hget. simpl in Hget.
        rewrite Hwidget in Hget. simpl in Hget. injection Hget as <-.
        destruct (turnstile p); exact Hwidget. }
      destruct (Hacq next (released p1) eq_refl Hw1) as (p3 & H3 & Ho3 & _).
      exists p3. now split.
    + intros owner q Hq. now apply tick_times_out.
Qed.

Lemma C9_timeout_returns_to_idle_witness :
  currentRequestId idle_page = None /\
  turnstileElement idle_page = true /\
  exists p1,
    getTurnstileToken "r1" idle_page = (Pending (poller_at "r1" 0), p1) /\
    poll 100 (poller_at "r1" 0) p1 =
      (Reject "Turnstile verification timeout", released p1) /\
    fst (getTurnstileToken "r2" (released p1)) = Pending (poller_at "r2" 0).
Proof.
  assert (H1 : currentRequestId idle_page = None) by reflexivity.
  assert (H2 : turnstileElement idle_page = true) by reflexivity.
  split; [exact H1|]. split; [exact H2|].
  destruct (C9_timeout_returns_to_idle "r1" idle_page H1 H2)
    as (p1 & Hget & _ & _ & Hpoll & _ & _ & Hnext & _).
  exists p1. split; [exact Hget|]. split; [exact Hpoll|].
  destruct (Hnext "r2") as (p3 & H3 & _). now rewrite H3.
Defined.

(** ** Further properties of the rate limiter *)

Lemma prune_prune (tw t : Z) (A : list Z) :
  tw <= t -> prune t (prune tw A) = prune t A.
Proof.
  intros Hle. unfold prune, RATE_LIMIT_WINDOW_SECONDS.
  induction A as [|a A IH]; simpl; [reflexivity|].
  destruct (Z.ltb_spec (tw - 60) a) as [Hin|Hout]; simpl.
  - now rewrite IH.
  - destruct (Z.ltb_spec (t - 60) a) as [Hin'|_]; [lia|exact IH].
Qed.

Lemma prune_old (tw t : Z) (A : list Z) :
  List.Forall (fun a => a <= tw) A -> tw + 60 <= t -> prune t A = [].
Proof.
  intros Hall Hle. unfold prune, RATE_LIMIT_WINDOW_SECONDS.
  induction Hall as [|a A Ha _ IH]; simpl; [reflexivity|].
  destruct (Z.ltb_spec (t - 60) a) as [Hin|_]; [lia|exact IH].
Qed.

Lemma prune_snoc (t : Z) (A : list Z) :
  prune t (A ++ [t]) = (prune t A ++ [t])%list.
Proof.
  unfold prune, RATE_LIMIT_WINDOW_SECONDS. rewrite List.filter_app. simpl.
  destruct (Z.ltb_spec (t - 60) t) as [_|H]; [reflexivity|lia].
Qed.

Lemma prune_recent (t : Z) (A : list Z) :
  List.Forall (fun a => t - 60 < a) A -> prune t A = A.
Proof.
  intros Hall. unfold prune, RATE_LIMIT_WINDOW_SECONDS.
  induction Hall as [|a A Ha _ IH]; simpl; [reflexivity|].
  destruct (Z.ltb_spec (t - 60) a) as [_|H]; [now rewrite IH|lia].
Qed.

(** What a synced binding yields when read at or after its last
    write: a sequence with the same pruning as the admitted instants. *)
Lemma synced_reads (request : Request) (A : list Z) (tw t : Z) (kv : KV.namespace) :
  synced (kvKey request) A tw kv ->
  tw <= t ->
  exists ts, reads request t kv ts /\ prune t ts = prune t A.
Proof.
  intros (Hget & _ & Hall & Hentry) Hle. unfold reads, KV.get. rewrite Hget.
  destruct Hentry as [[Hnone ->]|Hsome].
  - rewrite Hnone. exists []. split; [|reflexivity]. exists JNull. now split.
  - rewrite Hsome. cbn [KV.entry_expiration KV.entry_text].
    destruct (Z.leb_spec (tw + 70) t) as [Hexp|Hlive].
    + exists []. split; [exists JNull; now split|].
      symmetry. apply (prune_old tw); [assumption|lia].
    + exists (prune tw A). split; [|now apply prune_prune].
      exists (record (prune tw A)). now split.
Qed.

(** One check on a synced binding: a rejection that leaves it as it
    is, or an admission that records the instant. *)
Lemma check_synced
  (request : Request) (env : Env) (A : list Z) (tw t : Z) (kv : KV.namespace) :
  RATE_LIMIT_KV env = Some kv ->
  synced (kvKey request) A tw kv ->
  tw <= t ->
  ((20 <= length (prune t A))%nat /\
   checkRateLimit request env t =
     (Normal (reject (Num (Z.max 1 (List.hd 0 (prune t A) + 60 - t)))),
      {| kv_after := Some kv; console := [] |})) \/
  ((length (prune t A) < 20)%nat /\
   exists kv',
     checkRateLimit request env t =
       (Normal (allow (19 - Z.of_nat (length (prune t A))) (t + 60)),
        {| kv_after := Some kv'; console := [] |}) /\
     synced (kvKey request) (A ++ [t]) t kv').
Proof.
  intros Hkv Hsync Hle.
  destruct (synced_reads request A tw t kv Hsync Hle) as (ts & (data & Hget & Hmem) & Hts).
  destruct Hsync as (Hgf & Hpf & Hall & Hentry).
  unfold checkRateLimit. rewrite Hkv, (try_on_ints _ _ _ _ _ Hget Hmem), Hts.
  destruct (Z.leb_spec 20 (Z.of_nat (length (prune t A)))) as [Hfull|Hroom].
  - left. split; [lia|reflexivity].
  - right. split; [lia|]. rewrite put_ok by assumption.
    eexists. split.
    + replace (20 - Z.of_nat (length (prune t A ++ [t])))
        with (19 - Z.of_nat (length (prune t A)))
        by (rewrite length_app; simpl; lia).
      reflexivity.
    + unfold synced. cbn [KV.get_fails KV.put_fails KV.entries].
      split; [assumption|]. split; [assumption|]. split.
      * apply List.Forall_app. split.
        -- eapply List.Forall_impl; [|exact Hall]. simpl. intros; lia.
        -- constructor; [lia|constructor].
      * right. rewrite lookup_insert_eq, prune_snoc. reflexivity.
Qed.

Lemma run_checks_cons (env : Env) (request : Request) (t : Z) (rest : list (Request * Z)) :
  fst (run_checks env ((request, t) :: rest)) =
    fst (checkRateLimit request env t)
      :: fst (run_checks (with_kv env (kv_after (snd (checkRateLimit request env t)))) rest).
Proof.
  simpl. destruct (checkRateLimit request env t) as [d eff]. simpl.
  now destruct (run_checks (with_kv env (kv_after eff)) rest).
Qed.

Lemma filter_length_mono (p q : Z -> bool) (l : list Z) :
  (forall a, In a l -> p a = true -> q a = true) ->
  (length (List.filter p l) <= length (List.filter q l))%nat.
Proof.
  induction l as [|a l IH]; intros Himp; simpl; [lia|].
  assert (IH' := IH (fun x Hx => Himp x (or_intror Hx))).
  destruct (p a) eqn:Hp.
  - rewrite (Himp a (or_introl eq_refl) Hp). simpl. lia.
  - destruct (q a); simpl; lia.
Qed.

Lemma window_bounded_snoc (A : list Z) (t' : Z) :
  window_bounded A ->
  List.Forall (fun a => a <= t') A ->
  (length (prune t' A) < 20)%nat ->
  window_bounded (A ++ [t']).
Proof.
  intros Hb Hall Hroom t. rewrite List.filter_app, length_app. simpl.
  destruct (in_window t t') eqn:Hin; simpl; [|specialize (Hb t); lia].
  apply andb_prop in Hin as [Hlo Hhi].
  apply Z.ltb_lt in Hlo. apply Z.leb_le in Hhi.
  assert (Hle : (length (List.filter (in_window t) A) <= length (prune t' A))%nat).
  { apply filter_length_mono. intros a Ha Hw.
    apply andb_prop in Hw as [Hlo' _]. apply Z.ltb_lt in Hlo'.
    unfold RATE_LIMIT_WINDOW_SECONDS. apply Z.ltb_lt.
    rewrite List.Forall_forall in Hall. specialize (Hall a Ha). lia. }
  lia.
Qed.

Lemma run_synced
  (request : Request) (times : list Z) :
  forall (env : Env) (A : list Z) (tw : Z) (kv : KV.namespace),
    RATE_LIMIT_KV env = Some kv ->
    synced (kvKey request) A tw kv ->
    window_bounded A ->
    StronglySorted Z.le times ->
    List.Forall (fun t => tw <= t) times ->
    window_bounded
      (A ++ admitted_times times (fst (run_checks env (calls_at request times)))).
Proof.
  induction times as [|t rest IH]; intros env A tw kv Hkv Hsync Hb Hsorted Hafter.
  - simpl. now rewrite List.app_nil_r.
  - unfold calls_at. simpl List.map. rewrite run_checks_cons. fold (calls_at request rest).
    inversion Hsorted as [|? ? Hsorted' Hrest]; subst.
    inversion Hafter as [|? ? Htw Hafter']; subst.
    destruct (check_synced request env A tw t kv Hkv Hsync Htw)
      as [[Hfull Hc]|[Hroom (kv' & Hc & Hsync')]]; rewrite Hc; simpl.
    + apply (IH _ A tw kv); auto.
    + replace (A ++ t :: admitted_times rest
                 (fst (run_checks (with_kv env (Some kv')) (calls_at request rest))))%list
        with ((A ++ [t]) ++ admitted_times rest
                 (fst (run_checks (with_kv env (Some kv')) (calls_at request rest))))%list
        by (now rewrite <- List.app_assoc).
      apply (IH _ (A ++ [t])%list t kv'); auto.
      apply window_bounded_snoc; [assumption| |assumption].
      destruct Hsync as (_ & _ & Hall & _).
      eapply List.Forall_impl; [|exact Hall]. simpl. intros; lia.
Qed.

(** X1: sequential checks of one identity, at instants that do not
    run backwards, against a store that works and holds no record for
    the identity: whatever the number of checks, at most 20 of the
    admitted ones lie in any window of 60 seconds. *)
Theorem sliding_window_bound
  (request : Request) (env : Env) (kv : KV.namespace) (times : list Z) :
  RATE_LIMIT_KV env = Some kv ->
  KV.get_fails kv = false ->
  KV.put_fails kv = false ->
  KV.entries kv !! kvKey request = None ->
  StronglySorted Z.le times ->
  forall t,
    (length (List.filter (in_window t)
               (admitted_times times (fst (run_checks env (calls_at request times)))))
     <= 20)%nat.
Proof.
  intros Hkv Hgf Hpf Hnone Hsorted.
  apply (run_synced request times env [] (List.hd 0 times) kv Hkv).
  - repeat split; auto.
  - intros t. simpl. lia.
  - assumption.
  - destruct times as [|t0 rest]; [constructor|]. simpl.
    inversion Hsorted; subst. constructor; [lia|assumption].
Qed.

Lemma run_checks_app (calls1 calls2 : list (Request * Z)) :
  forall env,
    run_checks env (calls1 ++ calls2) =
      (fst (run_checks env calls1) ++ fst (run_checks (snd (run_checks env calls1)) calls2),
       snd (run_checks (snd (run_checks env calls1)) calls2))%list.
Proof.
  induction calls1 as [|[request t] rest IH]; intros env; simpl.
  - now destruct (run_checks env calls2).
  - destruct (checkRateLimit request env t) as [d eff].
    rewrite IH. destruct (run_checks (with_kv env (kv_after eff)) rest) as [ds env']. reflexivity.
Qed.

Lemma run_checks_cons_env (env : Env) (request : Request) (t : Z) (rest : list (Request * Z)) :
  snd (run_checks env ((request, t) :: rest)) =
    snd (run_checks (with_kv env (kv_after (snd (checkRateLimit request env t)))) rest).
Proof.
  simpl. destruct (checkRateLimit request env t) as [d eff]. simpl.
  now destruct (run_checks (with_kv env (kv_after eff)) rest).
Qed.

(** A run of one identity on a synced binding leaves a synced binding
    whose history is extended by the admitted instants. *)
Lemma run_synced_state (request : Request) (times : list Z) (u : Z) :
  forall (env : Env) (A : list Z) (tw : Z) (kv : KV.namespace),
    RATE_LIMIT_KV env = Some kv ->
    synced (kvKey request) A tw kv ->
    List.Forall (fun t => tw <= t) times ->
    StronglySorted Z.le times ->
    List.Forall (fun t => t <= u) times ->
    tw <= u ->
    exists tw' kv',
      RATE_LIMIT_KV (snd (run_checks env (calls_at request times))) = Some kv' /\
      synced (kvKey request)
        (A ++ admitted_times times (fst (run_checks env (calls_at request times)))) tw' kv' /\
      tw' <= u.
Proof.
  induction times as [|t rest IH]; intros env A tw kv Hkv Hsync Hafter Hsorted Hbefore Hu.
  - simpl. rewrite List.app_nil_r. eauto.
  - unfold calls_at. simpl List.map.
    rewrite run_checks_cons, run_checks_cons_env. fold (calls_at request rest).
    inversion Hsorted as [|? ? Hsorted' Hrest]; subst.
    inversion Hafter as [|? ? Htw Hafter']; subst.
    inversion Hbefore as [|? ? Htu Hbefore']; subst.
    destruct (check_synced request env A tw t kv Hkv Hsync Htw)
      as [[Hfull Hc]|[Hroom (kv' & Hc & Hsync')]]; rewrite Hc; simpl.
    + apply (IH _ A tw kv); auto.
    + destruct (IH (with_kv env (Some kv')) (A ++ [t])%list t kv')
        as (tw' & kv'' & H1 & H2 & H3); auto.
      exists tw', kv''. rewrite <- List.app_assoc in H2. auto.
Qed.

(** X2: the check that follows a sequential, failure-free history of
    one identity is admitted exactly when fewer than 20 of the checks
    admitted before lie in its window, with [remaining] the room left
    after it; otherwise it is rejected with the delay computed from
    the first of them. *)
Theorem admission_exact
  (request : Request) (env : Env) (kv : KV.namespace) (times : list Z) (t : Z) :
  RATE_LIMIT_KV env = Some kv ->
  KV.get_fails kv = false ->
  KV.put_fails kv = false ->
  KV.entries kv !! kvKey request = None ->
  StronglySorted Z.le (times ++ [t]) ->
  let before :=
    prune t (admitted_times times (fst (run_checks env (calls_at request times)))) in
  List.last (fst (run_checks env (calls_at request (times ++ [t])))) (Throw "") =
    Normal (if (length before <? 20)%nat
            then allow (19 - Z.of_nat (length before)) (t + 60)
            else reject (Num (Z.max 1 (List.hd 0 before + 60 - t)))).
Proof.
  intros Hkv Hgf Hpf Hnone Hsorted before.
  assert (Hparts : StronglySorted Z.le times /\ List.Forall (fun x => x <= t) times).
  { clear -Hsorted. induction times as [|a l IH]; simpl in *.
    - split; constructor.
    - inversion Hsorted as [|? ? Hs Hall]; subst. destruct (IH Hs) as [Hs' Hle].
      apply List.Forall_app in Hall as [Hall Ht]. inversion Ht; subst.
      split; constructor; auto. }
  destruct Hparts as [Hs Hle].
  destruct (run_synced_state request times t env [] (List.hd t times) kv)
    as (tw' & kv' & Henv & Hsync & Htw'); auto.
  { repeat split; auto. }
  { destruct times as [|t0 rest]; [constructor|]. simpl.
    inversion Hs; subst. constructor; [lia|assumption]. }
  { destruct times as [|t0 rest]; simpl; [lia|]. now inversion Hle. }
  unfold calls_at. rewrite List.map_app. fold (calls_at request times). simpl List.map.
  rewrite run_checks_app. cbn [fst]. rewrite run_checks_cons. simpl run_checks.
  rewrite List.last_last. simpl in Hsync.
  destruct (check_synced request _ _ tw' t kv' Henv Hsync Htw')
    as [[Hfull Hc]|[Hroom (kv'' & Hc & _)]]; rewrite Hc; cbn [fst]; subst before.
  - destruct (Nat.ltb_spec (length (prune t (admitted_times times
       (fst (run_checks env (calls_at request times)))))) 20); [lia|reflexivity].
  - destruct (Nat.ltb_spec (length (prune t (admitted_times times
       (fst (run_checks env (calls_at request times)))))) 20); [reflexivity|lia].
Qed.

Lemma burst_from (request : Request) (t0 : Z) (times : list Z) :
  forall (env : Env) (A : list Z) (tw : Z) (kv : KV.namespace),
    RATE_LIMIT_KV env = Some kv ->
    synced (kvKey request) A tw kv ->
    List.Forall (fun a => t0 <= a) A ->
    (times <> [] -> List.hd 0 (A ++ times) = t0) ->
    StronglySorted Z.le times ->
    List.Forall (fun t => tw <= t /\ t < t0 + 60) times ->
    forall i t,
      List.nth_error times i = Some t ->
      List.nth_error (fst (run_checks env (calls_at request times))) i =
        Some (Normal (if (length A + i <? 20)%nat
                      then allow (19 - Z.of_nat (length A + i)) (t + 60)
                      else reject (Num (t0 + 60 - t)))).
Proof.
  induction times as [|t1 rest IH]; intros env A tw kv Hkv Hsync Hge Hhd Hsorted Hin i t Hnth.
  - destruct i; discriminate.
  - unfold calls_at. simpl List.map. rewrite run_checks_cons. fold (calls_at request rest).
    inversion Hin as [|? ? [Htw Hlt] Hin']; subst.
    inversion Hsorted as [|? ? Hsorted' Hnext]; subst.
    specialize (Hhd ltac:(discriminate)).
    assert (Hall : List.Forall (fun a => a <= tw) A) by (destruct Hsync as (_ & _ & H & _); exact H).
    assert (Ht0 : t0 <= t1).
    { destruct A as [|a A']; simpl in Hhd; [lia|]. subst a.
      inversion Hall; subst. lia. }
    assert (Hrecent : prune t1 A = A).
    { apply prune_recent. eapply List.Forall_impl; [|exact Hge]. simpl. intros; lia. }
    destruct (check_synced request env A tw t1 kv Hkv Hsync Htw)
      as [[Hfull Hc]|[Hroom (kv' & Hc & Hsync')]]; rewrite Hc; rewrite Hrecent in *.
    + assert (Hhead : List.hd 0 A = t0).
      { destruct A as [|a A']; simpl in *; [lia|assumption]. }
      rewrite Hhead. replace (Z.max 1 (t0 + 60 - t1)) with (t0 + 60 - t1) by lia.
      destruct i as [|i]; simpl in *.
      * injection Hnth as <-.
        destruct (Nat.ltb_spec (length A + 0) 20); [lia|reflexivity].
      * rewrite (IH (with_kv env (Some kv)) A tw kv eq_refl Hsync Hge) with (t := t); auto.
        -- destruct (Nat.ltb_spec (length A + i) 20); [lia|].
           destruct (Nat.ltb_spec (length A + S i) 20); [lia|reflexivity].
        -- intros _. destruct A as [|a A']; simpl in *; [lia|assumption].
    + destruct i as [|i]; simpl in *.
      * injection Hnth as <-. rewrite Nat.add_0_r.
        destruct (Nat.ltb_spec (length A) 20); [reflexivity|lia].
      * rewrite (IH (with_kv env (Some kv')) (A ++ [t1])%list t1 kv' eq_refl Hsync') with (t := t); auto.
        -- rewrite length_app. simpl.
           replace (length A + 1 + i)%nat with (length A + S i)%nat by lia. reflexivity.
        -- apply List.Forall_app. split; [assumption|]. constructor; [assumption|constructor].
        -- intros _. rewrite <- List.app_assoc. exact Hhd.
        -- rewrite List.Forall_forall in *. intros a Ha.
           split; [now apply Hnext|now apply Hin'].
Qed.

(** X3: a burst of one identity against a store that works and holds
    no record for it, at instants in order that all lie less than 60
    seconds after the first: the first 20 checks are admitted, with
    [remaining] going from 19 down to 0, and every later one is
    rejected with the time left until the first instant leaves the
    window. *)
Theorem burst_within_window
  (request : Request) (env : Env) (kv : KV.namespace) (times : list Z) :
  RATE_LIMIT_KV env = Some kv ->
  KV.get_fails kv = false ->
  KV.put_fails kv = false ->
  KV.entries kv !! kvKey request = None ->
  StronglySorted Z.le times ->
  List.Forall (fun t => t < List.hd 0 times + 60) times ->
  forall i t,
    List.nth_error times i = Some t ->
    List.nth_error (fst (run_checks env (calls_at request times))) i =
      Some (Normal (if (i <? 20)%nat
                    then allow (19 - Z.of_nat i) (t + 60)
                    else reject (Num (List.hd 0 times + 60 - t)))).
Proof.
  intros Hkv Hgf Hpf Hnone Hsorted Hspan i t Hnth.
  apply (burst_from request (List.hd 0 times) times env [] (List.hd 0 times) kv); auto.
  - repeat split; auto.
  - destruct times as [|t0 rest]; [constructor|]. simpl in *.
    inversion Hsorted as [|? ? _ Hnext]; subst.
    inversion Hspan as [|? ? H0 Hrest]; subst.
    constructor; [lia|].
    rewrite List.Forall_forall in *. intros a Ha. split; [now apply Hnext|now apply Hrest].
Qed.

Lemma burst_within_window_witness :
  RATE_LIMIT_KV (env_with empty_kv) = Some empty_kv /\
  KV.get_fails empty_kv = false /\
  KV.put_fails empty_kv = false /\
  KV.entries empty_kv !! kvKey (from_ip "1.2.3.4") = None /\
  StronglySorted Z.le sample_times /\
  List.Forall (fun t => t < List.hd 0 sample_times + 60) sample_times /\
  List.nth_error sample_times 2 = Some 30 /\
  List.nth_error
    (fst (run_checks (env_with empty_kv) (calls_at (from_ip "1.2.3.4") sample_times))) 2
    = Some (Normal (allow 17 90)).
Proof.
  assert (H1 : RATE_LIMIT_KV (env_with empty_kv) = Some empty_kv) by reflexivity.
  assert (H2 : KV.get_fails empty_kv = false) by reflexivity.
  assert (H3 : KV.put_fails empty_kv = false) by reflexivity.
  assert (H4 : KV.entries empty_kv !! kvKey (from_ip "1.2.3.4") = None) by reflexivity.
  assert (H5 : StronglySorted Z.le sample_times).
  { unfold sample_times. repeat (constructor; [|repeat (constructor; [lia|])]); constructor. }
  assert (H6 : List.Forall (fun t => t < List.hd 0 sample_times + 60) sample_times).
  { unfold sample_times. simpl. repeat (constructor; [lia|]). constructor. }
  assert (H7 : List.nth_error sample_times 2 = Some 30) by reflexivity.
  repeat (split; [assumption|]).
  exact (burst_within_window _ _ _ _ H1 H2 H3 H4 H5 H6 2%nat 30 H7).
Defined.

Lemma sliding_window_bound_witness :
  RATE_LIMIT_KV (env_with empty_kv) = Some empty_kv /\
  KV.get_fails empty_kv = false /\
  KV.put_fails empty_kv = false /\
  KV.entries empty_kv !! kvKey (from_ip "1.2.3.4") = None /\
  StronglySorted Z.le sample_times /\
  (length (List.filter (in_window 30)
             (admitted_times sample_times
                (fst (run_checks (env_with empty_kv)
                        (calls_at (from_ip "1.2.3.4") sample_times)))))
   <= 20)%nat.
Proof.
  assert (H1 : RATE_LIMIT_KV (env_with empty_kv) = Some empty_kv) by reflexivity.
  assert (H2 : KV.get_fails empty_kv = false) by reflexivity.
  assert (H3 : KV.put_fails empty_kv = false) by reflexivity.
  assert (H4 : KV.entries empty_kv !! kvKey (from_ip "1.2.3.4") = None) by reflexivity.
  assert (H5 : StronglySorted Z.le sample_times).
  { unfold sample_times. repeat (constructor; [|repeat (constructor; [lia|])]); constructor. }
  repeat (split; [assumption|]).
  exact (sliding_window_bound _ _ _ _ H1 H2 H3 H4 H5 30).
Defined.

Lemma admission_exact_witness :
  RATE_LIMIT_KV (env_with empty_kv) = Some empty_kv /\
  KV.get_fails empty_kv = false /\
  KV.put_fails empty_kv = false /\
  KV.entries empty_kv !! kvKey (from_ip "1.2.3.4") = None /\
  StronglySorted Z.le (([5; 5] : list Z) ++ [30])%list /\
  List.last
    (fst (run_checks (env_with empty_kv) (calls_at (from_ip "1.2.3.4") (([5; 5] : list Z) ++ [30])%list)))
    (Throw "")
  = Normal (allow 17 90).
Proof.
  assert (H1 : RATE_LIMIT_KV (env_with empty_kv) = Some empty_kv) by reflexivity.
  assert (H2 : KV.get_fails empty_kv = false) by reflexivity.
  assert (H3 : KV.put_fails empty_kv = false) by reflexivity.
  assert (H4 : KV.entries empty_kv !! kvKey (from_ip "1.2.3.4") = None) by reflexivity.
  assert (H5 : StronglySorted Z.le (([5; 5] : list Z) ++ [30])%list).
  { simpl. repeat (constructor; [|repeat (constructor; [lia|])]); constructor. }
  repeat (split; [assumption|]).
  exact (admission_exact _ _ _ _ _ H1 H2 H3 H4 H5).
Defined.

(** A binding that could be read is read the same way later, or the
    record has expired by then. *)
Lemma reads_later (request : Request) (now later : Z) (kv : KV.namespace) (ts : list Z) :
  reads request now kv ts ->
  now <= later ->
  reads request later kv ts \/ reads request later kv [].
Proof.
  intros (data & Hget & Hmem) Hle. unfold reads, KV.get in *.
  destruct (KV.get_fails kv); [discriminate|].
  destruct (KV.entries kv !! kvKey request) as [e|].
  - destruct (Z.leb_spec (KV.entry_expiration e) later) as [Hexp|Hlive].
    + right. exists JNull. now split.
    + destruct (Z.leb_spec (KV.entry_expiration e) now) as [Hexp'|_]; [lia|].
      destruct (KV.entry_text e); [discriminate|].
      left. exists data. now split.
  - right. exists JNull. now split.
Qed.

Lemma prune_length (t : Z) (ts : list Z) : (length (prune t ts) <= length ts)%nat.
Proof. unfold prune. apply List.filter_length_le. Qed.

(** X4: the delay announced by a rejection is enough. If a check is
    rejected at [now] over a stored record of at most 20 timestamps,
    the store is left as it was, and on that store (writes working,
    no other check of the identity admitted meanwhile) any check from
    [now + retryAfter] on is admitted. *)
Theorem retry_after_suffices
  (request : Request) (env : Env) (kv : KV.namespace) (now later : Z) (ts : list Z) :
  RATE_LIMIT_KV env = Some kv ->
  KV.put_fails kv = false ->
  reads request now kv ts ->
  (length ts <= 20)%nat ->
  (20 <= length (prune now ts))%nat ->
  now + Z.max 1 (List.hd 0 (prune now ts) + 60 - now) <= later ->
  checkRateLimit request env now =
    (Normal (reject (Num (Z.max 1 (List.hd 0 (prune now ts) + 60 - now)))),
     {| kv_after := Some kv; console := [] |}) /\
  exists left eff,
    checkRateLimit request env later =
      (Normal (allow left (later + 60)), eff) /\
    0 <= left.
Proof.
  intros Hkv Hpf Hreads Hlen Hfull Hlater. split.
  - destruct Hreads as (data & Hget & Hmem).
    unfold checkRateLimit. rewrite Hkv, (try_on_ints _ _ _ _ _ Hget Hmem).
    destruct (Z.leb_spec 20 (Z.of_nat (length (prune now ts)))); [reflexivity|lia].
  - assert (Hroom : forall ts', ts' = ts \/ ts' = [] -> (length (prune later ts') < 20)%nat).
    { intros ts' [->| ->]; [|simpl; lia].
      rewrite <- (prune_prune now later ts) by lia.
      pose proof (prune_length now ts) as Hle.
      destruct (prune now ts) as [|h rest] eqn:Hp; [simpl in Hfull; lia|].
      simpl in Hfull, Hle, Hlater.
      change (prune later (h :: rest)) with
        (if later - RATE_LIMIT_WINDOW_SECONDS <? h then h :: prune later rest
         else prune later rest).
      unfold RATE_LIMIT_WINDOW_SECONDS.
      destruct (Z.ltb_spec (later - 60) h) as [Hin|_]; [lia|].
      pose proof (prune_length later rest). lia. }
    assert (Hr : exists ts', reads request later kv ts' /\ (length (prune later ts') < 20)%nat).
    { destruct (reads_later request now later kv ts Hreads ltac:(lia)) as [H|H];
        eexists; (split; [exact H|]); apply Hroom; auto. }
    destruct Hr as (ts' & (data & Hget & Hmem) & Hlt).
    unfold checkRateLimit. rewrite Hkv, (try_on_ints _ _ _ _ _ Hget Hmem).
    destruct (Z.leb_spec 20 (Z.of_nat (length (prune later ts')))); [lia|].
    rewrite put_ok by assumption. do 2 eexists. split; [reflexivity|].
    rewrite length_app. simpl. lia.
Qed.

Lemma retry_after_suffices_witness :
  RATE_LIMIT_KV (env_with kv_full) = Some kv_full /\
  KV.put_fails kv_full = false /\
  reads (from_ip "1.2.3.4") 20 kv_full (upto 20) /\
  (length (upto 20) <= 20)%nat /\
  (20 <= length (prune 20 (upto 20)))%nat /\
  20 + Z.max 1 (List.hd 0 (prune 20 (upto 20)) + 60 - 20) <= 60 /\
  exists left eff,
    checkRateLimit (from_ip "1.2.3.4") (env_with kv_full) 60 =
      (Normal (allow left (60 + 60)), eff) /\
    0 <= left.
Proof.
  assert (H1 : RATE_LIMIT_KV (env_with kv_full) = Some kv_full) by reflexivity.
  assert (H2 : KV.put_fails kv_full = false) by reflexivity.
  assert (H3 : reads (from_ip "1.2.3.4") 20 kv_full (upto 20)).
  { exists (record (upto 20)). split; vm_compute; reflexivity. }
  assert (H4 : (length (upto 20) <= 20)%nat) by (vm_compute; lia).
  assert (H5 : (20 <= length (prune 20 (upto 20)))%nat) by (vm_compute; lia).
  assert (H6 : 20 + Z.max 1 (List.hd 0 (prune 20 (upto 20)) + 60 - 20) <= 60)
    by (vm_compute; discriminate).
  repeat (split; [assumption|]).
  exact (proj2 (retry_after_suffices _ _ _ 20 60 _ H1 H2 H3 H4 H5 H6)).
Defined.

Lemma kvKey_inj (r1 r2 : Request) : kvKey r1 = kvKey r2 -> clientIP r1 = clientIP r2.
Proof. unfold kvKey. simpl. intros H. now injection H. Qed.

(** The decision of the [try] block depends on the binding only
    through its two failure modes and the entry under the key. *)
Lemma try_local (key : string) (now : Z) (kv1 kv2 : KV.namespace) :
  KV.get_fails kv1 = KV.get_fails kv2 ->
  KV.put_fails kv1 = KV.put_fails kv2 ->
  KV.entries kv1 !! key = KV.entries kv2 !! key ->
  fst (checkRateLimit_try key now kv1) = fst (checkRateLimit_try key now kv2).
Proof.
  intros Hg Hp He. unfold checkRateLimit_try, KV.get, KV.put. rewrite Hg, Hp, He.
  destruct (KV.get_fails kv2); [reflexivity|].
  destruct (KV.entries kv2 !! key) as [e|].
  - destruct (KV.entry_expiration e <=? now).
    + simpl. destruct (KV.put_fails kv2); reflexivity.
    + destruct (KV.entry_text e) as [|v]; [reflexivity|].
      destruct (filter_window _ _) as [items|msg]; [|reflexivity].
      destruct (_ <=? _); [now destruct (plus_minus _ _ _)|].
      destruct (KV.put_fails kv2); reflexivity.
  - simpl. destruct (KV.put_fails kv2); reflexivity.
Qed.

(** X5: two identities do not influence each other. A check of one
    client leaves the entry of every client with another identity as
    it was, and the decision that other client gets is the one it would
    have got without that check. *)
Theorem identities_isolated
  (r1 r2 : Request) (env : Env) (kv : KV.namespace) (t1 t2 : Z) :
  RATE_LIMIT_KV env = Some kv ->
  clientIP r1 <> clientIP r2 ->
  (exists kv',
      kv_after (snd (checkRateLimit r1 env t1)) = Some kv' /\
      KV.get_fails kv' = KV.get_fails kv /\
      KV.put_fails kv' = KV.put_fails kv /\
      KV.entries kv' !! kvKey r2 = KV.entries kv !! kvKey r2) /\
  fst (checkRateLimit r2 (with_kv env (kv_after (snd (checkRateLimit r1 env t1)))) t2)
    = fst (checkRateLimit r2 env t2).
Proof.
  intros Hkv Hne.
  assert (Hkey : kvKey r1 <> kvKey r2) by (intros H; apply Hne, kvKey_inj, H).
  assert (Hafter : exists kv',
             kv_after (snd (checkRateLimit r1 env t1)) = Some kv' /\
             KV.get_fails kv' = KV.get_fails kv /\
             KV.put_fails kv' = KV.put_fails kv /\
             KV.entries kv' !! kvKey r2 = KV.entries kv !! kvKey r2).
  { destruct (check_writes r1 env kv t1 Hkv) as [H|(retained & _ & H)]; rewrite H.
    - exists kv. auto.
    - eexists. split; [reflexivity|]. unfold stored. cbn [KV.get_fails KV.put_fails KV.entries].
      repeat split. now rewrite lookup_insert_ne. }
  split; [exact Hafter|].
  destruct Hafter as (kv' & Hkv' & Hg & Hp & He). rewrite Hkv'.
  unfold checkRateLimit. cbn [with_kv RATE_LIMIT_KV]. rewrite Hkv.
  pose proof (try_local (kvKey r2) t2 kv' kv Hg Hp He) as Hloc.
  destruct (checkRateLimit_try (kvKey r2) t2 kv') as [[d|e] k1];
    destruct (checkRateLimit_try (kvKey r2) t2 kv) as [[d'|e'] k2];
    simpl in *; congruence.
Qed.

Lemma identities_isolated_witness :
  RATE_LIMIT_KV (env_with kv_full) = Some kv_full /\
  clientIP (from_ip "5.6.7.8") <> clientIP (from_ip "1.2.3.4") /\
  fst (checkRateLimit (from_ip "1.2.3.4")
         (with_kv (env_with kv_full)
            (kv_after (snd (checkRateLimit (from_ip "5.6.7.8") (env_with kv_full) 20))))
         20)
    = fst (checkRateLimit (from_ip "1.2.3.4") (env_with kv_full) 20).
Proof.
  assert (H1 : RATE_LIMIT_KV (env_with kv_full) = Some kv_full) by reflexivity.
  assert (H2 : clientIP (from_ip "5.6.7.8") <> clientIP (from_ip "1.2.3.4")) by discriminate.
  split; [exact H1|]. split; [exact H2|].
  exact (proj2 (identities_isolated _ _ _ _ 20 20 H1 H2)).
Defined.

Lemma before_comma_no_comma (s : string) : has_comma (before_comma s) = false.
Proof.
  induction s as [|c rest IH]; simpl; [reflexivity|].
  destruct (Ascii.eqb c ","%char) eqn:Hc; simpl; [reflexivity|].
  now rewrite Hc.
Qed.

Lemma trim_start_no_comma (s : string) :
  has_comma s = false -> has_comma (trim_start s) = false.
Proof.
  induction s as [|c rest IH]; simpl; [reflexivity|]. intros H.
  apply Bool.orb_false_iff in H as [Hc Hrest].
  destruct (is_space c); [now apply IH|]. simpl. now rewrite Hc, Hrest.
Qed.

Lemma trim_end_no_comma (s : string) :
  has_comma s = false -> has_comma (trim_end s) = false.
Proof.
  induction s as [|c rest IH]; simpl; [reflexivity|]. intros H.
  apply Bool.orb_false_iff in H as [Hc Hrest]. specialize (IH Hrest).
  destruct (trim_end rest) as [|c' t].
  - destruct (is_space c); simpl; [reflexivity|now rewrite Hc].
  - simpl in *. now rewrite Hc, IH.
Qed.

Lemma trim_start_starts (s : string) : starts_with_space (trim_start s) = false.
Proof.
  induction s as [|c rest IH]; simpl; [reflexivity|].
  destruct (is_space c) eqn:Hc; [exact IH|]. simpl. exact Hc.
Qed.

Lemma trim_end_starts (s : string) :
  starts_with_space s = false -> starts_with_space (trim_end s) = false.
Proof.
  destruct s as [|c rest]; simpl; [reflexivity|]. intros Hc.
  destruct (trim_end rest); [rewrite Hc|]; simpl; auto.
Qed.

Lemma trim_end_ends (s : string) : ends_with_space (trim_end s) = false.
Proof.
  induction s as [|c rest IH]; simpl; [reflexivity|].
  destruct (trim_end rest) as [|c' t] eqn:Ht.
  - destruct (is_space c) eqn:Hc; simpl; [reflexivity|exact Hc].
  - simpl in *. exact IH.
Qed.

(** X6: the identity a request is limited under is never empty. It is
    the CF-Connecting-IP header when that is present and not empty;
    otherwise it holds no comma and neither starts nor ends with white
    space, being the trimmed first element of X-Forwarded-For or the
    word unknown. *)
Theorem clientIP_normalised (request : Request) :
  clientIP request <> "" /\
  (truthy_str (headers_get request "CF-Connecting-IP") = true ->
   headers_get request "CF-Connecting-IP" = Some (clientIP request)) /\
  (truthy_str (headers_get request "CF-Connecting-IP") = false ->
   has_comma (clientIP request) = false /\
   starts_with_space (clientIP request) = false /\
   ends_with_space (clientIP request) = false /\
   (clientIP request = "unknown" \/
    exists xff, headers_get request "X-Forwarded-For" = Some xff /\
                clientIP request = trim (before_comma xff))).
Proof.
  unfold clientIP.
  destruct (truthy_str (headers_get request "CF-Connecting-IP")) eqn:Hcf.
  - destruct (headers_get request "CF-Connecting-IP") as [ip|]; [|discriminate].
    simpl in *. apply Bool.negb_true_iff, String.eqb_neq in Hcf.
    split; [assumption|]. split; [reflexivity|discriminate].
  - destruct (headers_get request "X-Forwarded-For") as [xff|].
    + destruct (truthy_str (Some (trim (before_comma xff)))) eqn:Hx.
      * simpl in Hx. apply Bool.negb_true_iff, String.eqb_neq in Hx.
        split; [assumption|]. split; [discriminate|]. intros _. unfold trim.
        split; [apply trim_end_no_comma, trim_start_no_comma, before_comma_no_comma|].
        split; [apply trim_end_starts, trim_start_starts|].
        split; [apply trim_end_ends|]. right. eauto.
      * split; [discriminate|]. split; [discriminate|]. intros _.
        repeat split; auto.
    + split; [discriminate|]. split; [discriminate|]. intros _.
      repeat split; auto.
Qed.

(** ** Properties of the 429 response *)

Lemma digit_char_digit (d : Z) :
  0 <= d <= 9 -> digit_of (digit_char d) = Some d.
Proof.
  intros H.
  assert (Hd : d = 0 \/ d = 1 \/ d = 2 \/ d = 3 \/ d = 4 \/
               d = 5 \/ d = 6 \/ d = 7 \/ d = 8 \/ d = 9) by lia.
  repeat (destruct Hd as [->|Hd]; [reflexivity|]). subst. reflexivity.
Qed.

Lemma digit_not_space (c : ascii) (d : Z) : digit_of c = Some d -> is_space c = false.
Proof.
  unfold digit_of, is_space. set (n := nat_of_ascii c).
  destruct (Nat.leb_spec 48 n); simpl; [|discriminate].
  destruct (Nat.leb_spec n 57); simpl; [|discriminate]. intros _.
  destruct (Nat.leb_spec 9 n); destruct (Nat.leb_spec n 13); simpl; try lia;
    destruct (Nat.eqb_spec n 32); destruct (Nat.eqb_spec n 160); simpl; try lia; reflexivity.
Qed.

Lemma digits_of_all_digits (fuel : nat) :
  forall n acc, 0 <= n -> all_digits acc = true -> all_digits (digits_of fuel n acc) = true.
Proof.
  induction fuel as [|fuel IH]; intros n acc Hn Hacc; cbn [digits_of]; [assumption|].
  assert (Hd : all_digits (String (digit_char (n mod 10)) acc) = true).
  { cbn [all_digits]. rewrite digit_char_digit by (pose proof (Z.mod_pos_bound n 10); lia). assumption. }
  destruct (n / 10 =? 0); [exact Hd|].
  apply IH; [apply Z.div_pos; lia|exact Hd].
Qed.

Lemma digits_of_value (fuel : nat) :
  forall n acc,
    0 <= n < 2 ^ Z.of_nat fuel ->
    digits_value 0 (digits_of fuel n acc) = digits_value n acc.
Proof.
  induction fuel as [|fuel IH]; intros n acc Hn.
  - change (2 ^ Z.of_nat 0) with 1 in Hn. replace n with 0 by lia. reflexivity.
  - cbn [digits_of].
    assert (Hstep : digits_value (n / 10) (String (digit_char (n mod 10)) acc)
                    = digits_value n acc).
    { cbn [digits_value]. rewrite digit_char_digit by (pose proof (Z.mod_pos_bound n 10); lia).
      f_equal. pose proof (Z.div_mod n 10). lia. }
    destruct (Z.eqb_spec (n / 10) 0) as [Hsmall|Hbig].
    + rewrite <- Hstep, Hsmall. reflexivity.
    + rewrite IH; [exact Hstep|].
      rewrite Nat2Z.inj_succ, Z.pow_succ_r in Hn by lia.
      split; [apply Z.div_pos; lia|].
      apply Z.div_lt_upper_bound; lia.
Qed.

Lemma trim_start_digits (s : string) : all_digits s = true -> trim_start s = s.
Proof.
  destruct s as [|c rest]; cbn [all_digits trim_start]; [reflexivity|].
  destruct (digit_of c) as [d|] eqn:Hc; [|discriminate].
  now rewrite (digit_not_space c d Hc).
Qed.

Lemma trim_end_digits (s : string) : all_digits s = true -> trim_end s = s.
Proof.
  induction s as [|c rest IH]; cbn [all_digits trim_end]; [reflexivity|].
  destruct (digit_of c) as [d|] eqn:Hc; [|discriminate]. intros Hrest.
  rewrite (IH Hrest). destruct rest; [|reflexivity].
  now rewrite (digit_not_space c d Hc).
Qed.

(** The decimal text of a non-negative integer reads back as that
    integer. *)
Lemma number_round_trip (n : Z) : 0 <= n -> StringToNumber (NumberToString n) = Num n.
Proof.
  intros Hn. unfold NumberToString.
  destruct (Z.ltb_spec n 0) as [|_]; [lia|].
  set (fuel := (Z.to_nat (Z.log2 n) + 1)%nat).
  assert (Hall : all_digits (digits_of fuel n "") = true)
    by (apply digits_of_all_digits; [lia|reflexivity]).
  assert (Hval : digits_value 0 (digits_of fuel n "") = Num n).
  { rewrite digits_of_value; [reflexivity|]. split; [lia|].
    unfold fuel. rewrite Nat2Z.inj_add, Z2Nat.id by apply Z.log2_nonneg.
    destruct (Z.eq_dec n 0) as [->|Hpos]; [reflexivity|].
    change (Z.of_nat 1) with 1. rewrite Z.add_1_r.
    apply Z.log2_spec. lia. }
  unfold StringToNumber, trim.
  rewrite trim_start_digits, trim_end_digits by assumption.
  destruct (digits_of fuel n "") as [|c rest] eqn:Hs.
  - exact Hval.
  - cbn [all_digits] in Hall. destruct (digit_of c) as [d|] eqn:Hc; [|discriminate].
    assert (Hminus : Ascii.eqb c "-"%char = false).
    { destruct (Ascii.eqb_spec c "-"%char) as [->|]; [discriminate|reflexivity]. }
    assert (Hplus : Ascii.eqb c "+"%char = false).
    { destruct (Ascii.eqb_spec c "+"%char) as [->|]; [discriminate|reflexivity]. }
    rewrite Hminus, Hplus. exact Hval.
Qed.

(** Every rejection [checkRateLimit] returns is built by
    [Math.max(1, _)]. *)
Lemma rejection_shape (request : Request) (env : Env) (now : Z) (d : Decision) (eff : Effects) :
  checkRateLimit request env now = (Normal d, eff) ->
  allowed d = false ->
  exists retry,
    d = reject retry /\ (retry = NaN \/ exists z, retry = Num z /\ 1 <= z).
Proof.
  unfold checkRateLimit. destruct (RATE_LIMIT_KV env) as [kv|].
  - destruct (try_inv (kvKey request) now kv) as [e|items Hfull|items Hlt Hput];
      intros [= <- <-] Hd; try discriminate.
    eexists. split; [reflexivity|apply Math_max_cases].
  - intros [= <- <-] Hd. discriminate.
Qed.

(** ** Properties of the market-chat handler *)

Lemma ask_answers (fetch : MarketChat.Completions) (bindings : MarketChat.Bindings)
  (query : json) (r : Http.Response) :
  MarketChat.ask fetch bindings query = Normal r ->
  exists payload, r = MarketChat.json_response 200 payload.
Proof.
  unfold MarketChat.ask. intros H.
  repeat case_match; simplify_eq; eauto.
Qed.

(** Every response the [try] block returns is the 429 response of a
    rejection or a JSON response with status 200, 400 or 403. *)
Lemma try_responses
  (siteverify : Siteverify) (fetch : MarketChat.Completions)
  (incoming : MarketChat.Incoming) (bindings : MarketChat.Bindings) (now : Z)
  (r : Http.Response) (eff : Effects) :
  MarketChat.onRequest_try siteverify fetch incoming bindings now = (Normal r, eff) ->
  (exists d, r = Http.rateLimitResponse d MarketChat.corsHeaders) \/
  (exists code payload,
      r = MarketChat.json_response code payload /\
      (code = 200 \/ code = 400 \/ code = 403)).
Proof.
  unfold MarketChat.onRequest_try. intros H.
  repeat case_match; simplify_eq; eauto 10.
  all: match goal with
       | Hask : MarketChat.ask _ _ _ = Normal _ |- _ =>
           destruct (ask_answers _ _ _ _ Hask) as [payload ->]; eauto 10
       end.
Qed.

Lemma cors_kept_json (code : Z) (payload : json) (name value : string) :
  MarketChat.corsHeaders !! name = Some value ->
  Http.headers (MarketChat.json_response code payload) !! name = Some value.
Proof.
  intros H. unfold MarketChat.json_response. cbn [Http.headers].
  rewrite lookup_insert_ne; [assumption|]. intros <-. vm_compute in H. discriminate.
Qed.

Lemma cors_kept_429 (d : Decision) (name value : string) :
  MarketChat.corsHeaders !! name = Some value ->
  Http.headers (Http.rateLimitResponse d MarketChat.corsHeaders) !! name = Some value.
Proof.
  intros H. unfold Http.rateLimitResponse. cbn [Http.headers].
  rewrite !lookup_insert_ne; [assumption| |]; intros <-; vm_compute in H; discriminate.
Qed.

(** X8: whatever the request, the bindings and the behaviour of the
    store and of the two remote services, [onRequest] answers with
    status 200, 400, 403, 405, 429 or 500, and the answer carries every
    CORS header of the module. *)
Theorem onRequest_status_and_cors
  (siteverify : Siteverify) (fetch : MarketChat.Completions)
  (incoming : MarketChat.Incoming) (bindings : MarketChat.Bindings) (now : Z) :
  (Http.status (fst (MarketChat.onRequest siteverify fetch incoming bindings now))
     ∈ [200; 400; 403; 405; 429; 500]) /\
  (forall name value,
      MarketChat.corsHeaders !! name = Some value ->
      Http.headers (fst (MarketChat.onRequest siteverify fetch incoming bindings now)) !! name
        = Some value).
Proof.
  unfold MarketChat.onRequest.
  destruct (String.eqb (MarketChat.method incoming) "OPTIONS").
  { split; [set_solver|]. intros name value H. exact H. }
  destruct (negb (String.eqb (MarketChat.method incoming) "POST")).
  { split; [simpl; set_solver|]. intros name value H. now apply cors_kept_json. }
  destruct (MarketChat.onRequest_try siteverify fetch incoming bindings now)
    as [[r|e] eff] eqn:Htry.
  - destruct (try_responses _ _ _ _ _ _ _ Htry) as [[d ->]|(code & payload & -> & Hcode)].
    + split; [simpl; set_solver|]. intros name value H. now apply cors_kept_429.
    + split; [simpl; destruct Hcode as [->|[->| ->]]; set_solver|].
      intros name value H. now apply cors_kept_json.
  - split; [simpl; set_solver|]. intros name value H. now apply cors_kept_json.
Qed.

(** X9: a request whose method is not POST gets its answer (200 with
    an empty body for OPTIONS, 405 otherwise) without the store being
    read or written, whatever the remote services would do and
    whatever the clock. *)
Theorem onRequest_other_methods
  (siteverify siteverify' : Siteverify) (fetch fetch' : MarketChat.Completions)
  (incoming : MarketChat.Incoming) (bindings : MarketChat.Bindings) (now now' : Z) :
  MarketChat.method incoming <> "POST" ->
  MarketChat.onRequest siteverify fetch incoming bindings now =
    MarketChat.onRequest siteverify' fetch' incoming bindings now' /\
  kv_after (snd (MarketChat.onRequest siteverify fetch incoming bindings now))
    = RATE_LIMIT_KV (MarketChat.env bindings) /\
  (Http.status (fst (MarketChat.onRequest siteverify fetch incoming bindings now)) = 200 /\
   Http.body (fst (MarketChat.onRequest siteverify fetch incoming bindings now)) = None /\
   MarketChat.method incoming = "OPTIONS"
   \/
   Http.status (fst (MarketChat.onRequest siteverify fetch incoming bindings now)) = 405 /\
   MarketChat.method incoming <> "OPTIONS").
Proof.
  intros Hm. unfold MarketChat.onRequest.
  destruct (String.eqb_spec (MarketChat.method incoming) "OPTIONS") as [Ho|Ho].
  - split; [reflexivity|]. split; [reflexivity|]. left. now repeat split.
  - destruct (String.eqb_spec (MarketChat.method incoming) "POST") as [Hp|_]; [contradiction|].
    simpl. split; [reflexivity|]. split; [reflexivity|]. right. now split.
Qed.

Lemma onRequest_other_methods_witness :
  MarketChat.method (chat_request "GET" JNull) <> "POST" /\
  Http.status
    (fst (MarketChat.onRequest siteverify_offline completions_offline
            (chat_request "GET" JNull) (chat_bindings kv_full "secret") 20)) = 405.
Proof.
  assert (H : MarketChat.method (chat_request "GET" JNull) <> "POST") by discriminate.
  split; [exact H|].
  destruct (proj2 (proj2 (onRequest_other_methods
                            siteverify_offline siteverify_offline
                            completions_offline completions_offline
                            _ (chat_bindings kv_full "secret") 20 20 H)))
    as [(_ & _ & Ho)|[H405 _]]; [discriminate Ho|exact H405].
Defined.

Lemma check_rejects (request : Request) (env : Env) (kv : KV.namespace) (now : Z) (ts : list Z) :
  RATE_LIMIT_KV env = Some kv ->
  reads request now kv ts ->
  (20 <= length (prune now ts))%nat ->
  checkRateLimit request env now =
    (Normal (reject (Num (Z.max 1 (List.hd 0 (prune now ts) + 60 - now)))),
     {| kv_after := Some kv; console := [] |}).
Proof.
  intros Hkv (data & Hget & Hmem) Hfull.
  unfold checkRateLimit. rewrite Hkv, (try_on_ints _ _ _ _ _ Hget Hmem).
  destruct (Z.leb_spec 20 (Z.of_nat (length (prune now ts)))); [reflexivity|lia].
Qed.

Lemma check_allows (request : Request) (env : Env) (kv : KV.namespace) (now : Z) (ts : list Z) :
  RATE_LIMIT_KV env = Some kv ->
  reads request now kv ts ->
  (length (prune now ts) < 20)%nat ->
  KV.put_fails kv = false ->
  checkRateLimit request env now =
    (Normal (allow (19 - Z.of_nat (length (prune now ts))) (now + 60)),
     {| kv_after :=
          Some (stored (kvKey request) now (List.map JNum (prune now ts ++ [now])) kv);
        console := [] |}).
Proof.
  intros Hkv (data & Hget & Hmem) Hroom Hput.
  unfold checkRateLimit. rewrite Hkv, (try_on_ints _ _ _ _ _ Hget Hmem).
  destruct (Z.leb_spec 20 (Z.of_nat (length (prune now ts)))); [lia|].
  rewrite put_ok by assumption.
  replace (20 - Z.of_nat (length (prune now ts ++ [now])))
    with (19 - Z.of_nat (length (prune now ts)))
    by (rewrite length_app; simpl; lia).
  reflexivity.
Qed.

Example lower_name : Http.lower "Retry-After" = "retry-after".
Proof. reflexivity. Qed.

(** The names of the 429 response built with the handlers' CORS
    headers. *)
Lemma response_names (d : Decision) (name : string) :
  is_Some (Http.headers (Http.rateLimitResponse d MarketChat.corsHeaders) !! name) ->
  name = "Retry-After" \/ name = "Content-Type" \/
  name = "Access-Control-Allow-Origin" \/ name = "Access-Control-Allow-Methods" \/
  name = "Access-Control-Allow-Headers".
Proof.
  intros [v Hv]. unfold Http.rateLimitResponse, MarketChat.corsHeaders in Hv.
  cbn [Http.headers] in Hv.
  repeat (apply lookup_insert_Some in Hv as [[<- _]|[_ Hv]]; [now auto 6|]).
  rewrite lookup_empty in Hv. discriminate.
Qed.

(** X7: the 429 response to a rejection over integer timestamps. For
    a clock reading [now] that is a whole number of epoch seconds and
    a stored record of integer timestamps none of which is later than
    [now], of which at least 20 are in the window, the response that
    [rateLimitResponse] builds from the rejection with the handlers'
    CORS headers has status 429, the rejection's message as body,
    Content-Type application/json, the three CORS headers, and a
    Retry-After header that is the decimal text of [retryAfter], a
    whole number of seconds from 1 to 60 that reads back as that
    number. No two names of the response differ only by case, so the
    Headers object joins none of them. *)
Theorem rate_limit_response_retry_after
  (request : Request) (env : Env) (kv : KV.namespace) (now : Z) (ts : list Z) :
  RATE_LIMIT_KV env = Some kv ->
  reads request now kv ts ->
  (20 <= length (prune now ts))%nat ->
  0 <= now < 2 ^ 52 ->
  List.Forall (fun t => t <= now) ts ->
  exists r,
    r = Z.max 1 (List.hd 0 (prune now ts) + 60 - now) /\
    1 <= r <= 60 /\
    fst (checkRateLimit request env now) = Normal (reject (Num r)) /\
    Http.status (Http.rateLimitResponse (reject (Num r)) MarketChat.corsHeaders) = 429 /\
    Http.body (Http.rateLimitResponse (reject (Num r)) MarketChat.corsHeaders) =
      Some (JObj [("error", JStr "Rate limit exceeded. Please try again later.")]) /\
    Http.headers (Http.rateLimitResponse (reject (Num r)) MarketChat.corsHeaders)
      !! "Retry-After" = Some (NumberToString r) /\
    StringToNumber (NumberToString r) = Num r /\
    Http.headers (Http.rateLimitResponse (reject (Num r)) MarketChat.corsHeaders)
      !! "Content-Type" = Some "application/json" /\
    (forall name value,
        MarketChat.corsHeaders !! name = Some value ->
        Http.headers (Http.rateLimitResponse (reject (Num r)) MarketChat.corsHeaders)
          !! name = Some value) /\
    (forall name1 name2,
        is_Some (Http.headers (Http.rateLimitResponse (reject (Num r))
                                 MarketChat.corsHeaders) !! name1) ->
        is_Some (Http.headers (Http.rateLimitResponse (reject (Num r))
                                 MarketChat.corsHeaders) !! name2) ->
        Http.lower name1 = Http.lower name2 ->
        name1 = name2).
Proof.
  intros Hkv Hreads Hfull Hnow Hpast.
  exists (Z.max 1 (List.hd 0 (prune now ts) + 60 - now)).
  assert (Hr : 1 <= Z.max 1 (List.hd 0 (prune now ts) + 60 - now) <= 60).
  { split; [lia|].
    destruct (prune now ts) as [|t0 rest] eqn:Hp; [simpl in Hfull; lia|].
    assert (Hin : In t0 (prune now ts)) by (rewrite Hp; now left).
    apply prune_spec in Hin as [Hin _].
    rewrite List.Forall_forall in Hpast. specialize (Hpast t0 Hin). simpl. lia. }
  split; [reflexivity|]. split; [exact Hr|]. split.
  { now rewrite (check_rejects _ _ _ _ _ Hkv Hreads Hfull). }
  split; [reflexivity|]. split; [reflexivity|]. split.
  { unfold Http.rateLimitResponse. cbn [Http.headers retryAfter reject].
    destruct (Z.eqb_spec (Z.max 1 (List.hd 0 (prune now ts) + 60 - now)) 0); [lia|].
    apply lookup_insert_eq. }
  split; [apply number_round_trip; lia|]. split.
  { unfold Http.rateLimitResponse. cbn [Http.headers].
    rewrite lookup_insert_ne by discriminate. apply lookup_insert_eq. }
  split; [intros name value H; now apply cors_kept_429|].
  intros name1 name2 H1 H2 Hsame.
  apply response_names in H1, H2.
  destruct H1 as [->|[->|[->|[->| ->]]]];
    destruct H2 as [->|[->|[->|[->| ->]]]];
    first [reflexivity | vm_compute in Hsame; discriminate Hsame].
Qed.

Lemma rate_limit_response_retry_after_witness :
  RATE_LIMIT_KV (env_with kv_full) = Some kv_full /\
  reads (from_ip "1.2.3.4") 20 kv_full (upto 20) /\
  (20 <= length (prune 20 (upto 20)))%nat /\
  0 <= 20 < 2 ^ 52 /\
  List.Forall (fun t => t <= 20) (upto 20) /\
  Http.headers (Http.rateLimitResponse (reject (Num 40)) MarketChat.corsHeaders)
    !! "Retry-After" = Some "40".
Proof.
  assert (H1 : RATE_LIMIT_KV (env_with kv_full) = Some kv_full) by reflexivity.
  assert (H2 : reads (from_ip "1.2.3.4") 20 kv_full (upto 20)).
  { exists (record (upto 20)). split; vm_compute; reflexivity. }
  assert (H3 : (20 <= length (prune 20 (upto 20)))%nat) by (vm_compute; lia).
  assert (H4 : 0 <= 20 < 2 ^ 52) by lia.
  assert (H5 : List.Forall (fun t => t <= 20) (upto 20)).
  { unfold upto. simpl. repeat (constructor; [lia|]). constructor. }
  repeat (split; [assumption|]).
  destruct (rate_limit_response_retry_after _ _ _ _ _ H1 H2 H3 H4 H5)
    as (r & Hr & _ & _ & _ & _ & Hheader & _).
  rewrite Hr in Hheader. exact Hheader.
Defined.

(** X10: the rate limiter comes first. A POST of a client that has 20
    timestamps in its window is answered with the 429 response of the
    rejection, whatever its token, its body and the behaviour of the
    two remote services: the token is not verified, the body is not
    read, the completion service is not called, and the store is left
    as it was. *)
Theorem onRequest_rate_limited_first
  (siteverify : Siteverify) (fetch : MarketChat.Completions)
  (incoming : MarketChat.Incoming) (bindings : MarketChat.Bindings)
  (kv : KV.namespace) (now : Z) (ts : list Z) :
  MarketChat.method incoming = "POST" ->
  RATE_LIMIT_KV (MarketChat.env bindings) = Some kv ->
  reads (MarketChat.request incoming) now kv ts ->
  (20 <= length (prune now ts))%nat ->
  MarketChat.onRequest siteverify fetch incoming bindings now =
    (Http.rateLimitResponse
       (reject (Num (Z.max 1 (List.hd 0 (prune now ts) + 60 - now))))
       MarketChat.corsHeaders,
     {| kv_after := Some kv; console := [] |}) /\
  Http.status (fst (MarketChat.onRequest siteverify fetch incoming bindings now)) = 429 /\
  Http.headers (fst (MarketChat.onRequest siteverify fetch incoming bindings now))
    !! "Retry-After"
    = Some (NumberToString (Z.max 1 (List.hd 0 (prune now ts) + 60 - now))).
Proof.
  intros Hm Hkv Hreads Hfull.
  assert (H : MarketChat.onRequest siteverify fetch incoming bindings now =
              (Http.rateLimitResponse
                 (reject (Num (Z.max 1 (List.hd 0 (prune now ts) + 60 - now))))
                 MarketChat.corsHeaders,
               {| kv_after := Some kv; console := [] |})).
  { unfold MarketChat.onRequest, MarketChat.onRequest_try.
    rewrite Hm, (check_rejects _ _ _ _ _ Hkv Hreads Hfull). reflexivity. }
  rewrite H. split; [reflexivity|]. split; [reflexivity|].
  unfold Http.rateLimitResponse. cbn [fst Http.headers retryAfter reject].
  destruct (Z.eqb_spec (Z.max 1 (List.hd 0 (prune now ts) + 60 - now)) 0); [lia|].
  apply lookup_insert_eq.
Qed.

(** X11: a refused verification still counts. A POST without a token,
    from a client with room in its window, against a store that works
    and a secret that is not the development sentinel, is answered 403
    without the body being read or the completion service called; yet
    the limiter has recorded the instant, so the refused request has
    used up one admission of the window. *)
Theorem onRequest_unverified_counts
  (siteverify : Siteverify) (fetch : MarketChat.Completions)
  (incoming : MarketChat.Incoming) (bindings : MarketChat.Bindings)
  (kv : KV.namespace) (now : Z) (ts : list Z) :
  MarketChat.method incoming = "POST" ->
  RATE_LIMIT_KV (MarketChat.env bindings) = Some kv ->
  reads (MarketChat.request incoming) now kv ts ->
  (length (prune now ts) < 20)%nat ->
  KV.put_fails kv = false ->
  TURNSTILE_SECRET_KEY (MarketChat.env bindings) <> Some LOCAL_DEV_SECRET ->
  truthy_str (headers_get (MarketChat.request incoming) "CF-Turnstile-Token") = false ->
  MarketChat.onRequest siteverify fetch incoming bindings now =
    (MarketChat.json_response 403 (JObj [("error", JStr "No Turnstile token provided")]),
     {| kv_after :=
          Some (stored (kvKey (MarketChat.request incoming)) now
                  (List.map JNum (prune now ts ++ [now])) kv);
        console := [] |}).
Proof.
  intros Hm Hkv Hreads Hroom Hput Hdev Htok.
  unfold MarketChat.onRequest, MarketChat.onRequest_try.
  rewrite Hm, (check_allows _ _ _ _ _ Hkv Hreads Hroom Hput).
  unfold verifyTurnstileToken. rewrite bool_decide_eq_false_2 by assumption.
  rewrite Htok. reflexivity.
Qed.

(** X12: a POST is answered 200 only if the limiter admitted it, the
    verification succeeded, the body parsed to a value with a truthy
    [query], and the completion service answered [ok] with JSON in
    which [choices[0].message] can be read. *)
Theorem onRequest_ok_only_if
  (siteverify : Siteverify) (fetch : MarketChat.Completions)
  (incoming : MarketChat.Incoming) (bindings : MarketChat.Bindings) (now : Z) :
  MarketChat.method incoming = "POST" ->
  Http.status (fst (MarketChat.onRequest siteverify fetch incoming bindings now)) = 200 ->
  exists d eff v out body query url auth response data content,
    checkRateLimit (MarketChat.request incoming) (MarketChat.env bindings) now
      = (Normal d, eff) /\
    allowed d = true /\
    verifyTurnstileToken siteverify
      (headers_get (MarketChat.request incoming) "CF-Turnstile-Token")
      (MarketChat.env bindings) = (Normal v, out) /\
    success v = true /\
    MarketChat.request_json incoming = Normal body /\
    member "query" body = Some query /\
    truthy query = true /\
    fetch url auth query = Normal response /\
    MarketChat.ok response = true /\
    MarketChat.json_of response = Normal data /\
    MarketChat.first_choice_content data = Normal content /\
    Http.body (fst (MarketChat.onRequest siteverify fetch incoming bindings now)) =
      Some (JObj match content with
                 | Some c => [("chatResponse", c)]
                 | None => []
                 end).
Proof.
  intros Hm. unfold MarketChat.onRequest, MarketChat.onRequest_try, MarketChat.ask.
  rewrite Hm. simpl String.eqb. cbv iota. simpl negb. cbv iota.
  intros Hs.
  repeat case_match; simplify_eq; simpl in Hs; try discriminate;
    repeat match goal with
           | H : negb _ = false |- _ => apply Bool.negb_false_iff in H
           end;
    do 11 eexists; repeat (split; [eassumption || reflexivity|]); reflexivity.
Qed.

Lemma onRequest_rate_limited_first_witness :
  MarketChat.method (chat_request "POST" JNull) = "POST" /\
  RATE_LIMIT_KV (MarketChat.env (chat_bindings kv_full LOCAL_DEV_SECRET)) = Some kv_full /\
  reads (MarketChat.request (chat_request "POST" JNull)) 20 kv_full (upto 20) /\
  (20 <= length (prune 20 (upto 20)))%nat /\
  Http.headers
    (fst (MarketChat.onRequest siteverify_offline completions_answering
            (chat_request "POST" JNull) (chat_bindings kv_full LOCAL_DEV_SECRET) 20))
    !! "Retry-After" = Some "40".
Proof.
  assert (H1 : MarketChat.method (chat_request "POST" JNull) = "POST") by reflexivity.
  assert (H2 : RATE_LIMIT_KV (MarketChat.env (chat_bindings kv_full LOCAL_DEV_SECRET))
               = Some kv_full) by reflexivity.
  assert (H3 : reads (MarketChat.request (chat_request "POST" JNull)) 20 kv_full (upto 20)).
  { exists (record (upto 20)). split; vm_compute; reflexivity. }
  assert (H4 : (20 <= length (prune 20 (upto 20)))%nat) by (vm_compute; lia).
  repeat (split; [assumption|]).
  exact (proj2 (proj2 (onRequest_rate_limited_first
                         siteverify_offline completions_answering _ _ _ _ _ H1 H2 H3 H4))).
Defined.

Lemma onRequest_unverified_counts_witness :
  MarketChat.method (chat_request "POST" JNull) = "POST" /\
  RATE_LIMIT_KV (MarketChat.env (chat_bindings empty_kv "secret")) = Some empty_kv /\
  reads (MarketChat.request (chat_request "POST" JNull)) 100 empty_kv [] /\
  (length (prune 100 []) < 20)%nat /\
  KV.put_fails empty_kv = false /\
  TURNSTILE_SECRET_KEY (MarketChat.env (chat_bindings empty_kv "secret"))
    <> Some LOCAL_DEV_SECRET /\
  truthy_str (headers_get (MarketChat.request (chat_request "POST" JNull))
                "CF-Turnstile-Token") = false /\
  MarketChat.onRequest siteverify_offline completions_answering
    (chat_request "POST" JNull) (chat_bindings empty_kv "secret") 100 =
    (MarketChat.json_response 403 (JObj [("error", JStr "No Turnstile token provided")]),
     {| kv_after := Some (kv_holding "ratelimit:1.2.3.4" (KV.Json (record [100])) 170 false);
        console := [] |}).
Proof.
  assert (H1 : MarketChat.method (chat_request "POST" JNull) = "POST") by reflexivity.
  assert (H2 : RATE_LIMIT_KV (MarketChat.env (chat_bindings empty_kv "secret"))
               = Some empty_kv) by reflexivity.
  assert (H3 : reads (MarketChat.request (chat_request "POST" JNull)) 100 empty_kv []).
  { exists JNull. split; reflexivity. }
  assert (H4 : (length (prune 100 []) < 20)%nat) by (simpl; lia).
  assert (H5 : KV.put_fails empty_kv = false) by reflexivity.
  assert (H6 : TURNSTILE_SECRET_KEY (MarketChat.env (chat_bindings empty_kv "secret"))
               <> Some LOCAL_DEV_SECRET) by discriminate.
  assert (H7 : truthy_str (headers_get (MarketChat.request (chat_request "POST" JNull))
                             "CF-Turnstile-Token") = false) by reflexivity.
  repeat (split; [assumption|]).
  rewrite (onRequest_unverified_counts siteverify_offline completions_answering
             _ _ _ _ _ H1 H2 H3 H4 H5 H6 H7).
  f_equal.
Defined.

Lemma onRequest_ok_only_if_witness :
  MarketChat.method (chat_request "POST" (JObj [("query", JStr "salaries")])) = "POST" /\
  Http.status
    (fst (MarketChat.onRequest siteverify_offline completions_answering
            (chat_request "POST" (JObj [("query", JStr "salaries")]))
            (chat_bindings empty_kv LOCAL_DEV_SECRET) 100)) = 200 /\
  exists d eff,
    checkRateLimit (from_ip "1.2.3.4")
      (MarketChat.env (chat_bindings empty_kv LOCAL_DEV_SECRET)) 100 = (Normal d, eff) /\
    allowed d = true.
Proof.
  assert (H1 : MarketChat.method (chat_request "POST" (JObj [("query", JStr "salaries")]))
               = "POST") by reflexivity.
  assert (H2 : Http.status
                 (fst (MarketChat.onRequest siteverify_offline completions_answering
                         (chat_request "POST" (JObj [("query", JStr "salaries")]))
                         (chat_bindings empty_kv LOCAL_DEV_SECRET) 100)) = 200)
    by (vm_compute; reflexivity).
  split; [exact H1|]. split; [exact H2|].
  destruct (onRequest_ok_only_if _ _ _ _ _ H1 H2)
    as (d & eff & _ & _ & _ & _ & _ & _ & _ & _ & _ & Hc & Hd & _).
  exists d, eff. split; [exact Hc|exact Hd].
Defined.

(** ** Further properties of Turnstile verification *)

(** X13: the verification service is contacted only with a token and a
    configured secret in hand, and what it is asked depends on nothing
    else. With the development sentinel, without a token or without a
    secret, the result is the same whatever the service would answer;
    otherwise two services that answer alike for this secret and this
    token give the same result. *)
Theorem verify_contacts_service_only_when_needed
  (fetch fetch' : Siteverify) (token : option string) (env : Env) :
  (TURNSTILE_SECRET_KEY env = Some LOCAL_DEV_SECRET \/
   truthy_str token = false \/
   truthy_str (TURNSTILE_SECRET_KEY env) = false ->
   verifyTurnstileToken fetch token env = verifyTurnstileToken fetch' token env) /\
  (forall t k,
      token = Some t ->
      TURNSTILE_SECRET_KEY env = Some k ->
      fetch k t = fetch' k t ->
      verifyTurnstileToken fetch token env = verifyTurnstileToken fetch' token env).
Proof.
  unfold verifyTurnstileToken. split.
  - intros [Hdev|[Htok|Hsec]].
    + now rewrite bool_decide_eq_true_2.
    + case_bool_decide; [reflexivity|]. now rewrite Htok.
    + case_bool_decide; [reflexivity|].
      destruct (truthy_str token); [|reflexivity]. now rewrite Hsec.
  - intros t k -> Hk Hsame. rewrite Hk. simpl default.
    unfold verifyTurnstileToken_try. now rewrite Hsame.
Qed.

(** ** Further properties of the client-side request lock *)

Lemma disabled_after_lock (p : Page) : all_disabled (setButtonsEnabled false p).
Proof.
  unfold all_disabled. simpl.
  induction (buttons p) as [|b bs IH]; simpl; constructor; [reflexivity|exact IH].
Qed.

Lemma step_consistent (p : Page) (e : Event) :
  lock_consistent p -> lock_consistent (step p e).
Proof.
  intros Hp. destruct e as [fresh|poller|requestId|token]; simpl.
  - unfold getTurnstileToken. destruct (currentRequestId p) eqn:Hcur; [exact Hp|].
    simpl. destruct (turnstileElement p); simpl.
    + destruct (turnstile p); apply (disabled_after_lock (set_currentRequestId (Some fresh) p)).
    + apply (disabled_after_lock (set_currentRequestId (Some fresh) p)).
  - unfold checkToken. destruct (truthy_str (currentTurnstileToken p)); [exact Hp|].
    destruct (maxAttempts <=? S (attempts poller))%nat; [|exact Hp].
    destruct (strict_eq (currentRequestId p) (Id (requestId poller))); [|exact Hp].
    apply released_enabled.
  - unfold completeRequest.
    destruct (strict_eq (currentRequestId p) requestId); [|exact Hp].
    apply released_enabled.
  - exact Hp.
Qed.

(** X14: throughout any sequence of acquisitions, polls, releases and
    token deliveries, the action buttons are disabled exactly while a
    request holds the lock: all disabled when [currentRequestId] is
    set, all enabled when it is [null]. *)
Theorem lock_and_buttons_agree (events : list Event) (p : Page) :
  lock_consistent p -> lock_consistent (List.fold_left step events p).
Proof.
  revert p. induction events as [|e rest IH]; intros p Hp; simpl; [exact Hp|].
  apply IH, step_consistent, Hp.
Qed.

Lemma lock_and_buttons_agree_witness :
  lock_consistent idle_page /\
  lock_consistent
    (List.fold_left step
       [Acquire "r1"; Acquire "r2"; Refresh "token"; Poll (poller_at "r1" 0);
        Complete (Id "r2"); Complete (Id "r1")]
       idle_page).
Proof.
  assert (H : lock_consistent idle_page).
  { unfold lock_consistent, all_enabled. simpl. repeat constructor. }
  split; [exact H|].
  exact (lock_and_buttons_agree _ idle_page H).
Defined.

(** The interval callback of another acquisition never touches a lock
    it does not own. *)
Lemma tick_foreign (poller : Poller) (p : Page) (holder : string) :
  currentRequestId p = Some holder ->
  requestId poller <> holder ->
  snd (checkToken poller p) = p.
Proof.
  intros Hcur Hne. unfold checkToken.
  destruct (truthy_str (currentTurnstileToken p)); [reflexivity|].
  destruct (maxAttempts <=? S (attempts poller))%nat; [|reflexivity].
  rewrite Hcur. unfold strict_eq.
  destruct (String.eqb_spec holder (requestId poller)) as [Heq|_]; [|reflexivity].
  now destruct Hne.
Qed.

(** X15: when the page has no widget element, [getTurnstileToken]
    rejects only after it has taken the lock, and does not give it
    back: the holder is the identifier just generated, the buttons are
    disabled, every later acquisition is refused as in progress, and
    only [completeRequest] with that very identifier releases. *)
Theorem missing_widget_keeps_lock (fresh : string) (p : Page) :
  currentRequestId p = None ->
  turnstileElement p = false ->
  exists p1,
    getTurnstileToken fresh p = (Rejected "Turnstile widget not found", p1) /\
    currentRequestId p1 = Some fresh /\
    currentTurnstileToken p1 = None /\
    all_disabled p1 /\
    turnstile_calls p1 = turnstile_calls p /\
    (forall next,
        getTurnstileToken next p1 =
          (Rejected "Please wait for the current request to complete", p1)) /\
    (forall requestId, requestId <> Id fresh -> completeRequest requestId p1 = p1) /\
    (forall poller, requestId poller <> fresh -> snd (checkToken poller p1) = p1).
Proof.
  intros Hidle Hwidget. eexists. split.
  { unfold getTurnstileToken. rewrite Hidle. simpl. rewrite Hwidget. reflexivity. }
  split; [reflexivity|]. split; [reflexivity|].
  split; [apply (disabled_after_lock (set_currentRequestId (Some fresh) p))|].
  split; [reflexivity|]. split; [reflexivity|]. split.
  - intros requestId Hne. unfold completeRequest. simpl.
    destruct requestId as [| |s]; simpl; try reflexivity.
    destruct (String.eqb_spec fresh s) as [->|_]; [contradiction|reflexivity].
  - intros poller Hne. now apply (tick_foreign poller _ fresh).
Qed.

Lemma missing_widget_keeps_lock_witness :
  currentRequestId page_without_widget = None /\
  turnstileElement page_without_widget = false /\
  exists p1,
    getTurnstileToken "r1" page_without_widget
      = (Rejected "Turnstile widget not found", p1) /\
    fst (getTurnstileToken "r2" p1)
      = Rejected "Please wait for the current request to complete".
Proof.
  assert (H1 : currentRequestId page_without_widget = None) by reflexivity.
  assert (H2 : turnstileElement page_without_widget = false) by reflexivity.
  split; [exact H1|]. split; [exact H2|].
  destruct (missing_widget_keeps_lock "r1" page_without_widget H1 H2)
    as (p1 & Hget & _ & _ & _ & _ & Hnext & _).
  exists p1. split; [exact Hget|]. now rewrite Hnext.
Defined.

(** X16: an acquisition that gets its token. From an idle page with
    the widget present, [getTurnstileToken] clears any token left from
    before and takes the lock; up to 99 polls without a token wait;
    once the widget has delivered a non-empty token, the next poll
    (the 100th at the latest) resolves with
    that token and the acquisition's own identifier, the lock still
    held; [completeRequest] with that identifier then clears the holder
    and re-enables the buttons. *)
Theorem acquisition_resolves (fresh token : string) (k : nat) (p : Page) :
  currentRequestId p = None ->
  turnstileElement p = true ->
  token <> "" ->
  (k < 100)%nat ->
  exists p1,
    getTurnstileToken fresh p = (Pending (poller_at fresh 0), p1) /\
    currentTurnstileToken p1 = None /\
    currentRequestId p1 = Some fresh /\
    all_disabled p1 /\
    poll k (poller_at fresh 0) p1 = (Waiting (poller_at fresh k), p1) /\
    checkToken (poller_at fresh k) (onTurnstileRefresh token p1) =
      (Resolve token fresh, onTurnstileRefresh token p1) /\
    currentRequestId (onTurnstileRefresh token p1) = Some fresh /\
    completeRequest (Id fresh) (onTurnstileRefresh token p1) =
      released (onTurnstileRefresh token p1) /\
    currentRequestId (released (onTurnstileRefresh token p1)) = None /\
    all_enabled (released (onTurnstileRefresh token p1)).
Proof.
  intros Hidle Hwidget Htoken Hk.
  assert (Hacq : exists p1,
             getTurnstileToken fresh p = (Pending (poller_at fresh 0), p1) /\
             currentTurnstileToken p1 = None /\
             currentRequestId p1 = Some fresh /\
             all_disabled p1).
  { unfold getTurnstileToken. rewrite Hidle. simpl. rewrite Hwidget. simpl.
    eexists. split; [reflexivity|].
    destruct (turnstile p); repeat split;
      apply (disabled_after_lock (set_currentRequestId (Some fresh) p)). }
  destruct Hacq as (p1 & Hget & Htok & Hown & Hdis).
  exists p1. repeat (split; [assumption|]). split; [|split; [|split; [|split; [|split]]]].
  - rewrite poll_waits; [reflexivity|now rewrite Htok|lia].
  - now apply tick_resolves.
  - exact Hown.
  - unfold completeRequest. simpl. rewrite Hown. simpl. now rewrite String.eqb_refl.
  - reflexivity.
  - apply released_enabled.
Qed.

Lemma acquisition_resolves_witness :
  currentRequestId idle_page = None /\
  turnstileElement idle_page = true /\
  "fresh-token" <> "" /\
  (3 < 100)%nat /\
  exists p1,
    getTurnstileToken "r1" idle_page = (Pending (poller_at "r1" 0), p1) /\
    checkToken (poller_at "r1" 3) (onTurnstileRefresh "fresh-token" p1) =
      (Resolve "fresh-token" "r1", onTurnstileRefresh "fresh-token" p1).
Proof.
  assert (H1 : currentRequestId idle_page = None) by reflexivity.
  assert (H2 : turnstileElement idle_page = true) by reflexivity.
  assert (H3 : "fresh-token" <> "") by discriminate.
  assert (H4 : (3 < 100)%nat) by lia.
  repeat (split; [assumption|]).
  destruct (acquisition_resolves "r1" "fresh-token" 3 idle_page H1 H2 H3 H4)
    as (p1 & Hget & _ & _ & _ & _ & Hres & _).
  exists p1. split; [exact Hget|exact Hres].
Defined.
